(** * Data-driven and flamelet fluid models of SU2

    A shallow embedding of [SU2_CFD/src/fluid/CDataDrivenFluid.cpp] and
    [SU2_CFD/src/fluid/CFluidFlamelet.cpp].

    The scalar type [su2double] of SU2 is a build-time choice (plain
    [double], or an algorithmic-differentiation type), so the code is
    embedded over an interface of scalar operations.  Its instance is IEEE
    binary64 (Rocq's primitive floats), which is what a primal build of
    SU2 computes with. *)

From Stdlib Require Import ZArith List String Bool Lia PeanoNat.
From Stdlib Require Import Floats.
Import ListNotations.

Set Implicit Arguments.
Set Warnings "-inexact-float".

(** ** The scalar interface *)

Module Su2.

(** The operations the two files use on [su2double].  [pow] is the power
    function of the C library at an integer exponent; the source calls it
    with the exponents 2, -1 and -2 only.  What every scalar type has to
    provide of it is that the square is the product and that the exponent
    -1 gives the reciprocal. *)
Class Su2Double (A : Type) : Type := {
  lit : Z -> A;            (* an integer literal: 0.0, 1, 2, 10 ... *)
  add : A -> A -> A;
  sub : A -> A -> A;
  mul : A -> A -> A;
  div : A -> A -> A;
  opp : A -> A;
  abs : A -> A;
  ltb : A -> A -> bool;     (* the comparison [x < y] *)
  pow : A -> Z -> A;
  pow_2 : forall x, pow x 2 = mul x x;
  pow_m1 : forall x, pow x (-1) = div (lit 1) x
}.

Declare Scope su2_scope.
Delimit Scope su2_scope with su2.
Infix "+" := add : su2_scope.
Infix "-" := sub : su2_scope.
Infix "*" := mul : su2_scope.
Infix "/" := div : su2_scope.
Notation "- x" := (opp x) : su2_scope.
Infix "<?" := ltb : su2_scope.

(** IEEE binary64. *)
Definition float_of_Z (z : Z) : float :=
  match z with
  | Z0 => PrimFloat.zero
  | Zpos p => PrimFloat.of_uint63 (Uint63.of_pos p)
  | Zneg p => PrimFloat.opp (PrimFloat.of_uint63 (Uint63.of_pos p))
  end.

(** The [p]-th power of a binary64 number without rounding: the product
    is taken in a format wide enough to hold it ([53 p] bits of mantissa,
    exponents beyond those of the [p]-th power of any binary64 number). *)
Definition wide_prec (p : positive) : Z := 53 * Zpos p + 1.
Definition wide_emax (p : positive) : Z := 1100 * Zpos p.

Definition exact_power (x : spec_float) (p : positive) : spec_float :=
  Pos.iter_op (SFmul (wide_prec p) (wide_emax p)) p x.

(** [pow(x, n)] on binary64.  The library function rounds once: a
    negative power is the quotient of 1 by the unrounded power, rounded to
    nearest ([pow(x, -1)] is the division [1 / x], and [pow(x, -2)] is not
    [1 / (x * x)], which rounds twice); the square is the product [x * x].
    Zeros, infinities and NaN come out as the library has them
    ([pow(+-0, -2)] is [+inf], [pow(+-0, -1)] is [+-inf]). *)
Definition pow_binary64 (x : float) (n : Z) : float :=
  match n with
  | Z0 => PrimFloat.one
  | Zpos p => Pos.iter_op PrimFloat.mul p x
  | Zneg p =>
      SF2Prim (SFdiv prec emax (Prim2SF PrimFloat.one) (exact_power (Prim2SF x) p))
  end.

Lemma pow_binary64_2 (x : float) : pow_binary64 x 2 = PrimFloat.mul x x.
Proof. reflexivity. Qed.

Lemma pow_binary64_m1 (x : float) :
  pow_binary64 x (-1) = PrimFloat.div (float_of_Z 1) x.
Proof.
  unfold pow_binary64, exact_power. cbn [Pos.iter_op].
  change (SFdiv prec emax) with SF64div.
  change (float_of_Z 1) with PrimFloat.one.
  rewrite <- div_spec. apply SF2Prim_Prim2SF.
Qed.

#[export] Instance binary64 : Su2Double float := {|
  lit := float_of_Z;
  add := PrimFloat.add;
  sub := PrimFloat.sub;
  mul := PrimFloat.mul;
  div := PrimFloat.div;
  opp := PrimFloat.opp;
  abs := PrimFloat.abs;
  ltb := PrimFloat.ltb;
  pow := pow_binary64;
  pow_2 := pow_binary64_2;
  pow_m1 := pow_binary64_m1
|}.

End Su2.

Import Su2.

(** ** Outcomes of fallible code *)

(** [SU2_MPI::Error] aborts the run with a message; an access outside a
    vector or through a pointer that was never set has no defined
    behaviour. *)
Inductive Outcome (T : Type) : Type :=
| Done (v : T)
| FatalError (msg : string)
| Undefined.

Arguments Done {T} v.
Arguments FatalError {T} msg.
Arguments Undefined {T}.

Definition bind {T U} (m : Outcome T) (k : T -> Outcome U) : Outcome U :=
  match m with
  | Done v => k v
  | FatalError msg => FatalError msg
  | Undefined => Undefined
  end.

Notation "x <- m ;; k" := (bind m (fun x => k))
  (at level 61, m at next level, right associativity).

(** ** CDataDrivenFluid *)

Module DataDriven.

(** The configured backend.  The enumeration itself is declared in the
    option structure of SU2; the source names its two members and gives
    every [switch] over it a [default] branch, which [OTHER_METHOD]
    stands for. *)
Inductive ENUM_DATADRIVEN_METHOD : Type :=
| LUT
| MLP
| OTHER_METHOD (raw : Z).

Definition is_MLP (k : ENUM_DATADRIVEN_METHOD) : bool :=
  match k with MLP => true | _ => false end.

Section Fluid.

Context {A : Type} `{Su2Double A}.
Local Open Scope su2_scope.

(** The six outputs requested from the manifold, in the order of
    [MapInputs_to_Outputs]: "s", "dsde_rho", "dsdrho_e", "d2sde2",
    "d2sdedrho", "d2sdrho2". *)
Record Outputs : Type := mkOutputs {
  o_s : A;
  o_dsde_rho : A;
  o_dsdrho_e : A;
  o_d2sde2 : A;
  o_d2sdedrho : A;
  o_d2sdrho2 : A
}.

(** A manifold maps density and energy to the six outputs. *)
Definition Manifold : Type := A -> A -> Outputs.

(** The two backends are external: [CLookUp_ANN file] is the perceptron
    read from [file], evaluated by [Predict_ANN]; [CLookUpTable file] is
    the table read from [file], evaluated by [LookUp_ProgEnth]. *)
Variable CLookUp_ANN : string -> Manifold.
Variable CLookUpTable : string -> Manifold.

(** Value of a member that has not been written yet. *)
Variable indeterminate : A.

Record CConfig : Type := mkConfig {
  GetKind_DataDriven_Method : ENUM_DATADRIVEN_METHOD;
  GetDataDriven_Filename : string;
  GetRelaxation_DataDriven : A;
  GetDensity_Init_DataDriven : A;
  GetEnergy_Init_DataDriven : A
}.

Record CDataDrivenFluid : Type := mkFluid {
  Kind_DataDriven_Method : ENUM_DATADRIVEN_METHOD;
  input_filename : string;
  Newton_Relaxation : A;
  rho_start : A;
  e_start : A;
  (* slots the manifold writes through [outputs_rhoe] *)
  Entropy : A;
  dsde_rho : A;
  dsdrho_e : A;
  d2sde2 : A;
  d2sdedrho : A;
  d2sdrho2 : A;
  (* derived state *)
  Density : A;
  StaticEnergy : A;
  SoundSpeed2 : A;
  Temperature : A;
  Pressure : A;
  dTde_rho : A;
  dTdrho_e : A;
  dPde_rho : A;
  dPdrho_e : A;
  Cp : A;
  Cv : A;
  Gamma : A;
  Gamma_Minus_One : A;
  Gas_Constant : A
}.

(** The constructor: anything but [MLP] is refused before a backend is
    built.  [MapInputs_to_Outputs] fixes the order of the six outputs,
    which [Outputs] carries in its fields. *)
Definition CDataDrivenFluid_ctor (config : CConfig) : Outcome CDataDrivenFluid :=
  let kind := GetKind_DataDriven_Method config in
  if negb (is_MLP kind) then
    FatalError
      "Only multi-layer perceptrons are currently accepted for data-driven fluid models."
  else
    Done {| Kind_DataDriven_Method := kind;
            input_filename := GetDataDriven_Filename config;
            Newton_Relaxation := GetRelaxation_DataDriven config;
            rho_start := GetDensity_Init_DataDriven config;
            e_start := GetEnergy_Init_DataDriven config;
            Entropy := indeterminate;
            dsde_rho := indeterminate;
            dsdrho_e := indeterminate;
            d2sde2 := indeterminate;
            d2sdedrho := indeterminate;
            d2sdrho2 := indeterminate;
            Density := indeterminate;
            StaticEnergy := indeterminate;
            SoundSpeed2 := indeterminate;
            Temperature := indeterminate;
            Pressure := indeterminate;
            dTde_rho := indeterminate;
            dTdrho_e := indeterminate;
            dPde_rho := indeterminate;
            dPdrho_e := indeterminate;
            Cp := indeterminate;
            Cv := indeterminate;
            Gamma := indeterminate;
            Gamma_Minus_One := indeterminate;
            Gas_Constant := indeterminate |}.

(** The backend a fluid evaluates, if its kind has one. *)
Definition backend (f : CDataDrivenFluid) : option Manifold :=
  match Kind_DataDriven_Method f with
  | MLP => Some (CLookUp_ANN (input_filename f))
  | LUT => Some (CLookUpTable (input_filename f))
  | OTHER_METHOD _ => None
  end.

(** The [switch] that opens [SetTDState_rhoe]: the backend writes the six
    slots; with no backend they keep what they held.  (The [LUT] case has
    no [break] and falls into the empty [default].) *)
Definition evaluate_manifold (f : CDataDrivenFluid) (rho e : A) : Outputs :=
  match Kind_DataDriven_Method f with
  | MLP => CLookUp_ANN (input_filename f) rho e
  | LUT => CLookUpTable (input_filename f) rho e
  | OTHER_METHOD _ =>
      mkOutputs (Entropy f) (dsde_rho f) (dsdrho_e f)
                (d2sde2 f) (d2sdedrho f) (d2sdrho2 f)
  end.

Definition SetTDState_rhoe (f : CDataDrivenFluid) (rho e : A)
  : CDataDrivenFluid :=
  let out := evaluate_manifold f rho e in
  let Entropy := o_s out in
  let dsde_rho := o_dsde_rho out in
  let dsdrho_e := o_dsdrho_e out in
  let d2sde2 := o_d2sde2 out in
  let d2sdedrho := o_d2sdedrho out in
  let d2sdrho2 := o_d2sdrho2 out in
  (* speed of sound *)
  let blue_term :=
    dsdrho_e * (lit 2 - rho * pow dsde_rho (-1) * d2sdedrho) + rho * d2sdrho2 in
  let green_term := - pow dsde_rho (-1) * d2sde2 * dsdrho_e + d2sdedrho in
  let SoundSpeed2 :=
    - rho * pow dsde_rho (-1)
      * (blue_term - rho * green_term * (dsdrho_e / dsde_rho)) in
  (* primary flow variables *)
  let Temperature := lit 1 / dsde_rho in
  let Pressure := - pow rho 2 * Temperature * dsdrho_e in
  let Density := rho in
  let StaticEnergy := e in
  (* secondary flow variables *)
  let dTde_rho := - pow dsde_rho (-2) * d2sde2 in
  let dTdrho_e := lit 0 in
  let dPde_rho := - pow rho 2 * dTde_rho * dsdrho_e in
  let dPdrho_e :=
    - lit 2 * rho * Temperature * dsdrho_e - pow rho 2 * Temperature * d2sdrho2 in
  let Cp := (lit 1 / dTde_rho) * (lit 1 + (lit 1 / Density) * dPde_rho) in
  let Cv := lit 1 / dTde_rho in
  let Gamma := Cp / Cv in
  let Gamma_Minus_One := Gamma - lit 1 in
  let Gas_Constant := Cp - Cv in
  {| Kind_DataDriven_Method := Kind_DataDriven_Method f;
     input_filename := input_filename f;
     Newton_Relaxation := Newton_Relaxation f;
     rho_start := rho_start f;
     e_start := e_start f;
     Entropy := Entropy;
     dsde_rho := dsde_rho;
     dsdrho_e := dsdrho_e;
     d2sde2 := d2sde2;
     d2sdedrho := d2sdedrho;
     d2sdrho2 := d2sdrho2;
     Density := Density;
     StaticEnergy := StaticEnergy;
     SoundSpeed2 := SoundSpeed2;
     Temperature := Temperature;
     Pressure := Pressure;
     dTde_rho := dTde_rho;
     dTdrho_e := dTdrho_e;
     dPde_rho := dPde_rho;
     dPdrho_e := dPdrho_e;
     Cp := Cp;
     Cv := Cv;
     Gamma := Gamma;
     Gamma_Minus_One := Gamma_Minus_One;
     Gas_Constant := Gas_Constant |}.

(** *** The Newton solvers

    Every solver runs [while(!converged && (Iter < iter_max))] over its
    local variables, with the fluid as the state the evaluator writes. *)

Record Newton : Type := mkNewton {
  fluid : CDataDrivenFluid;
  rho : A;
  e : A;
  converged : bool;
  Iter : nat
}.

Definition iter_max : nat := 1000.

Definition loop_cond (s : Newton) : bool :=
  negb (converged s) && (Iter s <? iter_max)%nat.

(** A [while] loop; [fuel] bounds the number of turns. *)
Fixpoint while (fuel : nat) (cond : Newton -> bool) (body : Newton -> Newton)
  (s : Newton) : Newton :=
  match fuel with
  | O => s
  | S fuel' => if cond s then while fuel' cond body (body s) else s
  end.

Definition tolerance_P : A := lit 10.
Definition tolerance_T : A := lit 1.
Definition tolerance_h : A := lit 10.
Definition tolerance_s : A := lit 1.

(** [SetTDState_PT] *)
Definition PT_body (P T : A) (s : Newton) : Newton :=
  let f := SetTDState_rhoe (fluid s) (rho s) (e s) in
  let delta_P := Pressure f - P in
  let delta_T := Temperature f - T in
  if (abs delta_P <? tolerance_P) && (abs delta_T <? tolerance_T) then
    mkNewton f (rho s) (e s) true (S (Iter s))
  else
    let determinant := dPdrho_e f * dTde_rho f - dPde_rho f * dTdrho_e f in
    let delta_rho := (dTde_rho f * delta_P - dPde_rho f * delta_T) / determinant in
    let delta_e := (- dTdrho_e f * delta_P + dPdrho_e f * delta_T) / determinant in
    mkNewton f (rho s - Newton_Relaxation f * delta_rho)
               (e s - Newton_Relaxation f * delta_e)
               (converged s) (S (Iter s)).

Definition PT_loop (f : CDataDrivenFluid) (P T : A) : Newton :=
  while iter_max loop_cond (PT_body P T)
    (mkNewton f (rho_start f) (e_start f) false 0).

Definition SetTDState_PT (f : CDataDrivenFluid) (P T : A) : CDataDrivenFluid :=
  let s := PT_loop f P T in
  SetTDState_rhoe (fluid s) (rho s) (e s).

(** [SetEnergy_Prho] and [SetTDState_Prho] *)
Definition Prho_body (P : A) (s : Newton) : Newton :=
  let f := SetTDState_rhoe (fluid s) (rho s) (e s) in
  let delta_P := Pressure f - P in
  if abs delta_P <? tolerance_P then
    mkNewton f (rho s) (e s) true (S (Iter s))
  else
    let delta_e := delta_P / dPde_rho f in
    mkNewton f (rho s) (e s - Newton_Relaxation f * delta_e)
               (converged s) (S (Iter s)).

Definition Prho_loop (f : CDataDrivenFluid) (P rho0 : A) : Newton :=
  while iter_max loop_cond (Prho_body P)
    (mkNewton f rho0 (e_start f) false 0).

Definition set_StaticEnergy (f : CDataDrivenFluid) (v : A) : CDataDrivenFluid :=
  {| Kind_DataDriven_Method := Kind_DataDriven_Method f;
     input_filename := input_filename f;
     Newton_Relaxation := Newton_Relaxation f;
     rho_start := rho_start f;
     e_start := e_start f;
     Entropy := Entropy f;
     dsde_rho := dsde_rho f;
     dsdrho_e := dsdrho_e f;
     d2sde2 := d2sde2 f;
     d2sdedrho := d2sdedrho f;
     d2sdrho2 := d2sdrho2 f;
     Density := Density f;
     StaticEnergy := v;
     SoundSpeed2 := SoundSpeed2 f;
     Temperature := Temperature f;
     Pressure := Pressure f;
     dTde_rho := dTde_rho f;
     dTdrho_e := dTdrho_e f;
     dPde_rho := dPde_rho f;
     dPdrho_e := dPdrho_e f;
     Cp := Cp f;
     Cv := Cv f;
     Gamma := Gamma f;
     Gamma_Minus_One := Gamma_Minus_One f;
     Gas_Constant := Gas_Constant f |}.

Definition SetEnergy_Prho (f : CDataDrivenFluid) (P rho0 : A) : CDataDrivenFluid :=
  let s := Prho_loop f P rho0 in
  set_StaticEnergy (fluid s) (e s).

Definition SetTDState_Prho (f : CDataDrivenFluid) (P rho0 : A) : CDataDrivenFluid :=
  let f' := SetEnergy_Prho f P rho0 in
  SetTDState_rhoe f' rho0 (StaticEnergy f').

(** [SetTDState_rhoT] *)
Definition rhoT_body (T : A) (s : Newton) : Newton :=
  let f := SetTDState_rhoe (fluid s) (rho s) (e s) in
  let delta_T := Temperature f - T in
  if abs delta_T <? tolerance_T then
    mkNewton f (rho s) (e s) true (S (Iter s))
  else
    let delta_e := delta_T / dTde_rho f in
    mkNewton f (rho s) (e s - Newton_Relaxation f * delta_e)
               (converged s) (S (Iter s)).

Definition rhoT_loop (f : CDataDrivenFluid) (rho0 T : A) : Newton :=
  while iter_max loop_cond (rhoT_body T)
    (mkNewton f rho0 (e_start f) false 0).

Definition SetTDState_rhoT (f : CDataDrivenFluid) (rho0 T : A) : CDataDrivenFluid :=
  let s := rhoT_loop f rho0 T in
  SetTDState_rhoe (fluid s) (rho s) (e s).

(** [SetTDState_hs] *)
Definition hs_body (h s0 : A) (s : Newton) : Newton :=
  let f := SetTDState_rhoe (fluid s) (rho s) (e s) in
  let Enthalpy := e s + Pressure f / rho s in
  let delta_h := Enthalpy - h in
  let delta_s := Entropy f - s0 in
  if (abs delta_h <? tolerance_h) && (abs delta_s <? tolerance_s) then
    mkNewton f (rho s) (e s) true (S (Iter s))
  else
    let dh_de := lit 1 + dPde_rho f / rho s in
    let dh_drho := - Pressure f * pow (rho s) (-2) + dPdrho_e f / rho s in
    let determinant := dh_drho * dsde_rho f - dh_de * dsdrho_e f in
    let delta_rho := (dsde_rho f * delta_h - dh_de * delta_s) / determinant in
    let delta_e := (- dsdrho_e f * delta_h + dh_drho * delta_s) / determinant in
    mkNewton f (rho s - Newton_Relaxation f * delta_rho)
               (e s - Newton_Relaxation f * delta_e)
               (converged s) (S (Iter s)).

Definition hs_loop (f : CDataDrivenFluid) (h s0 : A) : Newton :=
  while iter_max loop_cond (hs_body h s0)
    (mkNewton f (rho_start f) (e_start f) false 0).

Definition SetTDState_hs (f : CDataDrivenFluid) (h s0 : A) : CDataDrivenFluid :=
  let s := hs_loop f h s0 in
  SetTDState_rhoe (fluid s) (rho s) (e s).

(** [SetTDState_Ps] *)
Definition Ps_body (P s0 : A) (s : Newton) : Newton :=
  let f := SetTDState_rhoe (fluid s) (rho s) (e s) in
  let delta_P := Pressure f - P in
  let delta_s := Entropy f - s0 in
  if (abs delta_P <? tolerance_P) && (abs delta_s <? tolerance_s) then
    mkNewton f (rho s) (e s) true (S (Iter s))
  else
    let determinant := dPdrho_e f * dsde_rho f - dPde_rho f * dsdrho_e f in
    let delta_rho := (dsde_rho f * delta_P - dPde_rho f * delta_s) / determinant in
    let delta_e := (- dsdrho_e f * delta_P + dPdrho_e f * delta_s) / determinant in
    mkNewton f (rho s - Newton_Relaxation f * delta_rho)
               (e s - Newton_Relaxation f * delta_e)
               (converged s) (S (Iter s)).

Definition Ps_loop (f : CDataDrivenFluid) (P s0 : A) : Newton :=
  while iter_max loop_cond (Ps_body P s0)
    (mkNewton f (rho_start f) (e_start f) false 0).

Definition SetTDState_Ps (f : CDataDrivenFluid) (P s0 : A) : CDataDrivenFluid :=
  let s := Ps_loop f P s0 in
  SetTDState_rhoe (fluid s) (rho s) (e s).

(** *** The five solvers side by side

    [a] and [b] are the two arguments of a solver in the order of its
    name: (P, T), (P, rho), (rho, T), (h, s), (P, s). *)

Inductive Solver : Type :=
| Solve_PT
| Solve_Prho
| Solve_rhoT
| Solve_hs
| Solve_Ps.

Definition body (sv : Solver) (a b : A) : Newton -> Newton :=
  match sv with
  | Solve_PT => PT_body a b
  | Solve_Prho => Prho_body a
  | Solve_rhoT => rhoT_body b
  | Solve_hs => hs_body a b
  | Solve_Ps => Ps_body a b
  end.

Definition loop (sv : Solver) (f : CDataDrivenFluid) (a b : A) : Newton :=
  match sv with
  | Solve_PT => PT_loop f a b
  | Solve_Prho => Prho_loop f a b
  | Solve_rhoT => rhoT_loop f a b
  | Solve_hs => hs_loop f a b
  | Solve_Ps => Ps_loop f a b
  end.

Definition solve (sv : Solver) (f : CDataDrivenFluid) (a b : A)
  : CDataDrivenFluid :=
  match sv with
  | Solve_PT => SetTDState_PT f a b
  | Solve_Prho => SetTDState_Prho f a b
  | Solve_rhoT => SetTDState_rhoT f a b
  | Solve_hs => SetTDState_hs f a b
  | Solve_Ps => SetTDState_Ps f a b
  end.

(** The locals a solver starts from. *)
Definition init (sv : Solver) (f : CDataDrivenFluid) (a b : A) : Newton :=
  match sv with
  | Solve_Prho => mkNewton f b (e_start f) false 0
  | Solve_rhoT => mkNewton f a (e_start f) false 0
  | _ => mkNewton f (rho_start f) (e_start f) false 0
  end.

(** The forward state at the guess a loop state holds. *)
Definition forward (s : Newton) : CDataDrivenFluid :=
  SetTDState_rhoe (fluid s) (rho s) (e s).

(** *** The solvers as the specification words them *)

(** The residuals of a solver at a forward state, each with its absolute
    tolerance: 10 for pressure and enthalpy, 1 for temperature and
    entropy.  Enthalpy is energy plus pressure over density. *)
Definition residuals (sv : Solver) (a b : A) (f : CDataDrivenFluid)
  : list (A * A) :=
  match sv with
  | Solve_PT => [(Pressure f - a, lit 10); (Temperature f - b, lit 1)]
  | Solve_Prho => [(Pressure f - a, lit 10)]
  | Solve_rhoT => [(Temperature f - b, lit 1)]
  | Solve_hs =>
      [(StaticEnergy f + Pressure f / Density f - a, lit 10);
       (Entropy f - b, lit 1)]
  | Solve_Ps => [(Pressure f - a, lit 10); (Entropy f - b, lit 1)]
  end.

Definition within_tolerance (sv : Solver) (a b : A) (f : CDataDrivenFluid)
  : bool :=
  forallb (fun rt => abs (fst rt) <? snd rt) (residuals sv a b f).

(** Cramer's rule for the system [J11 x + J12 y = r1], [J21 x + J22 y = r2]. *)
Definition cramer (J11 J12 J21 J22 r1 r2 : A) : A * A :=
  let determinant := J11 * J22 - J12 * J21 in
  ((J22 * r1 - J12 * r2) / determinant,
   (- J21 * r1 + J11 * r2) / determinant).

(** The Newton step (density, energy) of a solver at a forward state: the
    Jacobian of its two targets with respect to density and energy, solved
    by Cramer's rule; the density-fixed solvers step in energy only. *)
Definition newton_step (sv : Solver) (a b : A) (f : CDataDrivenFluid)
  : A * A :=
  match sv with
  | Solve_PT =>
      cramer (dPdrho_e f) (dPde_rho f) (dTdrho_e f) (dTde_rho f)
             (Pressure f - a) (Temperature f - b)
  | Solve_Prho => (lit 0, (Pressure f - a) / dPde_rho f)
  | Solve_rhoT => (lit 0, (Temperature f - b) / dTde_rho f)
  | Solve_hs =>
      let dh_de := lit 1 + dPde_rho f / Density f in
      let dh_drho :=
        - Pressure f * pow (Density f) (-2) + dPdrho_e f / Density f in
      cramer dh_drho dh_de (dsdrho_e f) (dsde_rho f)
             (StaticEnergy f + Pressure f / Density f - a) (Entropy f - b)
  | Solve_Ps =>
      cramer (dPdrho_e f) (dPde_rho f) (dsdrho_e f) (dsde_rho f)
             (Pressure f - a) (Entropy f - b)
  end.

(** Whether the solver moves the density. *)
Definition updates_density (sv : Solver) : bool :=
  match sv with
  | Solve_Prho | Solve_rhoT => false
  | _ => true
  end.

(** The locals after [n] turns of the loop body from [s]. *)
Fixpoint run_body (n : nat) (sv : Solver) (a b : A) (s : Newton) : Newton :=
  match n with
  | O => s
  | S n' => run_body n' sv a b (body sv a b s)
  end.

(** The residual test fails at each of the first [n] guesses from [s]. *)
Fixpoint never_within (n : nat) (sv : Solver) (a b : A) (s : Newton) : bool :=
  match n with
  | O => true
  | S n' =>
      negb (within_tolerance sv a b (forward s))
      && never_within n' sv a b (body sv a b s)
  end.

(** The targets a forward state gives a solver. *)
Definition targets (sv : Solver) (f : CDataDrivenFluid) : A * A :=
  match sv with
  | Solve_PT => (Pressure f, Temperature f)
  | Solve_Prho => (Pressure f, Density f)
  | Solve_rhoT => (Density f, Temperature f)
  | Solve_hs => (StaticEnergy f + Pressure f / Density f, Entropy f)
  | Solve_Ps => (Pressure f, Entropy f)
  end.

(** The quantities the residuals of a solver measure at a forward
    state. *)
Definition measured (sv : Solver) (f : CDataDrivenFluid) : list A :=
  match sv with
  | Solve_PT => [Pressure f; Temperature f]
  | Solve_Prho => [Pressure f]
  | Solve_rhoT => [Temperature f]
  | Solve_hs => [StaticEnergy f + Pressure f / Density f; Entropy f]
  | Solve_Ps => [Pressure f; Entropy f]
  end.

(** Two fluids configured alike: the members the constructor reads from
    the configuration, which no evaluation writes. *)
Definition same_configuration (f g : CDataDrivenFluid) : Prop :=
  Kind_DataDriven_Method f = Kind_DataDriven_Method g /\
  input_filename f = input_filename g /\
  Newton_Relaxation f = Newton_Relaxation g /\
  rho_start f = rho_start g /\
  e_start f = e_start g.

(** Loop states that differ only in what the fluid held before. *)
Definition same_locals (s t : Newton) : Prop :=
  same_configuration (fluid s) (fluid t) /\
  rho s = rho t /\ e s = e t /\ converged s = converged t /\ Iter s = Iter t.

(** The round trip as the specification words it: given the targets a
    forward evaluation at (rho0, e0) produces, the solver ends converged,
    on a state whose residuals are within the tolerances. *)
Definition reconverges (sv : Solver) (f : CDataDrivenFluid) (rho0 e0 : A) : Prop :=
  let t := targets sv (SetTDState_rhoe f rho0 e0) in
  converged (loop sv f (fst t) (snd t)) = true /\
  within_tolerance sv (fst t) (snd t) (solve sv f (fst t) (snd t)) = true.

(** Modelled from the spec: the squared speed of sound in the grouping the
    specification writes, with the quotients [rho * s_erho / s_e] and
    [s_ee / s_e] where the source multiplies by the reciprocal of s_e. *)
Definition spec_SoundSpeed2 (rho s_e s_rho s_ee s_erho s_rhorho : A) : A :=
  let blue := s_rho * (lit 2 - rho * s_erho / s_e) + rho * s_rhorho in
  let green := - (s_ee / s_e) * s_rho + s_erho in
  - rho * (lit 1 / s_e) * (blue - rho * green * (s_rho / s_e)).

(** The same with the quotient [s_erho / s_e] taken before the product
    with the density. *)
Definition spec_SoundSpeed2' (rho s_e s_rho s_ee s_erho s_rhorho : A) : A :=
  let blue := s_rho * (lit 2 - rho * (s_erho / s_e)) + rho * s_rhorho in
  let green := - (s_ee / s_e) * s_rho + s_erho in
  - rho * (lit 1 / s_e) * (blue - rho * green * (s_rho / s_e)).


End Fluid.

End DataDriven.

(** ** CFluidFlamelet *)

Module Flamelet.

(** Vectors: [operator[]] is unchecked in the source, so an index outside
    the vector has no defined behaviour. *)
Definition vec_get {T} (v : list T) (i : nat) : Outcome T :=
  match nth_error v i with
  | Some x => Done x
  | None => Undefined
  end.

Fixpoint vec_set {T} (v : list T) (i : nat) (x : T) : Outcome (list T) :=
  match v, i with
  | [], _ => Undefined
  | _ :: v', O => Done (x :: v')
  | y :: v', S i' => v'' <- vec_set v' i' x ;; Done (y :: v'')
  end.

Definition resize {T} (n : nat) (d : T) (v : list T) : list T :=
  (firstn n v ++ repeat d (n - List.length v))%list.

(** [for (i = start; i < start + count; i++) acc = step(i, acc)] *)
Fixpoint for_range {T} (count start : nat) (step : nat -> T -> Outcome T)
  (acc : T) : Outcome T :=
  match count with
  | O => Done acc
  | S count' => acc' <- step start acc ;; for_range count' (S start) step acc'
  end.

(** Modelled from the spec: the positions of the control variables in a
    scalar vector are declared outside these sources; the spec orders the
    vector as progress variable, enthalpy, optional mixture fraction, then
    the user scalars. *)
Definition I_PROGVAR : nat := 0.
Definition I_ENTH : nat := 1.
Definition I_MIXFRAC : nat := 2.

(** Modelled from the spec: the source-term group holds one net term for
    the progress variable, then a production and a consumption term per
    user scalar. *)
Definition I_SRC_TOT_PROGVAR : nat := 0.

(** Modelled from the spec: the enumeration [LOOKUP_TD] is declared
    outside these sources; the spec gives the thermodynamic output group as
    temperature, heat capacity, viscosity, conductivity, diffusion
    coefficient, molar weight, the order in which the source names them. *)
Module LOOKUP_TD.
Definition TEMPERATURE : nat := 0.
Definition HEATCAPACITY : nat := 1.
Definition VISCOSITY : nat := 2.
Definition CONDUCTIVITY : nat := 3.
Definition DIFFUSIONCOEFFICIENT : nat := 4.
Definition MOLARWEIGHT : nat := 5.
Definition SIZE : nat := 6.
End LOOKUP_TD.

(** The lookup groups; [OTHER_OP] stands for the [default] branch. *)
Inductive FLAMELET_LOOKUP_OPS : Type :=
| TD
| SOURCES
| LOOKUP
| OTHER_OP (raw : Z).

Section Fluid.

Context {A : Type} `{Su2Double A}.
Local Open Scope string_scope.
Local Open Scope su2_scope.

(** Modelled from the spec: [CLookUpTable] is not among these sources.
    The spec's manifold maps control variables and an ordered list of
    output names to a list of values of the same length and a flag that
    is raised when the point is outside the tabulated domain, the best
    estimate being returned all the same. *)
Record CLookUpTable : Type := mkTable {
  tab_value : string -> list A -> A;
  tab_inside : list A -> bool
}.

Definition table_query (t : CLookUpTable) (varnames : list string)
  (point : list A) : list A * nat :=
  (map (fun name => tab_value t name point) varnames,
   if tab_inside t point then 0%nat else 1%nat).

Definition LookUp_XY (t : CLookUpTable) (varnames : list string)
  (val_prog val_enth : A) : list A * nat :=
  table_query t varnames [val_prog; val_enth].

Definition LookUp_XYZ (t : CLookUpTable) (varnames : list string)
  (val_prog val_enth val_mixfrac : A) : list A * nat :=
  table_query t varnames [val_prog; val_enth; val_mixfrac].

(** The table read from a file, with the names of its two coordinates. *)
Variable CLookUpTable_ctor : string -> string -> string -> CLookUpTable.

Variable UNIVERSAL_GAS_CONSTANT : A.

(** Value of a member that has not been written yet. *)
Variable indeterminate : A.
Variable indeterminate_flag : nat.

Record CConfig : Type := mkConfig {
  GetNUserScalars : nat;
  GetNControlVars : nat;
  GetNScalars : nat;
  GetUserScalarName : nat -> string;
  GetFileNameLUT : string;
  GetUserSourceName : nat -> string;
  GetNLookups : nat;
  GetLUTLookupName : nat -> string
}.

Record CFluidFlamelet : Type := mkFlamelet {
  generate_manifold : bool;
  n_user_scalars : nat;
  n_control_vars : nat;
  include_mixture_fraction : bool;
  n_scalars : nat;
  scalars_vector : list A;
  table_scalar_names : list string;
  look_up_table : option CLookUpTable;
  varnames_TD : list string;
  val_vars_TD : list A;
  varnames_Sources : list string;
  val_vars_Sources : list A;
  varnames_LookUp : list string;
  val_vars_LookUp : list A;
  extrapolation : nat;
  Pressure : A;
  Temperature : A;
  Cp : A;
  Mu : A;
  Kt : A;
  mass_diffusivity : A;
  molar_weight : A;
  Density : A;
  Cv : A
}.

(** The name and value tables [PreprocessLookUp] builds. *)
Record LookUpTables : Type := mkLookUpTables {
  pp_varnames_TD : list string;
  pp_val_vars_TD : list A;
  pp_varnames_Sources : list string;
  pp_val_vars_Sources : list A;
  pp_varnames_LookUp : list string;
  pp_val_vars_LookUp : list A
}.

Definition PreprocessLookUp (n_user_scalars : nat) (config : CConfig)
  : Outcome LookUpTables :=
  let varnames_TD := resize LOOKUP_TD.SIZE EmptyString [] in
  let val_vars_TD := resize LOOKUP_TD.SIZE (lit 0) [] in
  varnames_TD <- vec_set varnames_TD LOOKUP_TD.TEMPERATURE "Temperature" ;;
  varnames_TD <- vec_set varnames_TD LOOKUP_TD.HEATCAPACITY "Cp" ;;
  varnames_TD <- vec_set varnames_TD LOOKUP_TD.VISCOSITY "ViscosityDyn" ;;
  varnames_TD <- vec_set varnames_TD LOOKUP_TD.CONDUCTIVITY "Conductivity" ;;
  varnames_TD <- vec_set varnames_TD LOOKUP_TD.DIFFUSIONCOEFFICIENT "DiffusionCoefficient" ;;
  varnames_TD <- vec_set varnames_TD LOOKUP_TD.MOLARWEIGHT "MolarWeightMix" ;;
  let n_sources := (1 + 2 * n_user_scalars)%nat in
  let varnames_Sources := resize n_sources EmptyString [] in
  let val_vars_Sources := resize n_sources (lit 0) [] in
  varnames_Sources <- vec_set varnames_Sources I_SRC_TOT_PROGVAR "ProdRateTot_PV" ;;
  varnames_Sources <-
    for_range n_user_scalars 0
      (fun i_aux names =>
         names <- vec_set names (1 + 2 * i_aux)%nat
                    (GetUserSourceName config (2 * i_aux)%nat) ;;
         vec_set names (1 + 2 * i_aux + 1)%nat
           (GetUserSourceName config (2 * i_aux + 1)%nat))
      varnames_Sources ;;
  let n_lookups := GetNLookups config in
  let varnames_LookUp := resize n_lookups EmptyString [] in
  let val_vars_LookUp := resize n_lookups (lit 0) [] in
  varnames_LookUp <-
    for_range n_lookups 0
      (fun iLookup names => vec_set names iLookup (GetLUTLookupName config iLookup))
      varnames_LookUp ;;
  Done (mkLookUpTables varnames_TD val_vars_TD varnames_Sources
          val_vars_Sources varnames_LookUp val_vars_LookUp).

Definition CFluidFlamelet_ctor (config : CConfig)
  (value_pressure_operating : A) (load_manifold : bool)
  : Outcome CFluidFlamelet :=
  let generate_manifold := load_manifold in
  let n_user_scalars := GetNUserScalars config in
  let n_control_vars := GetNControlVars config in
  let include_mixture_fraction := (n_control_vars =? 3)%nat in
  let n_scalars := GetNScalars config in
  let scalars_vector := resize n_scalars (lit 0) [] in
  let table_scalar_names := resize n_scalars EmptyString [] in
  table_scalar_names <- vec_set table_scalar_names I_ENTH "EnthalpyTot" ;;
  table_scalar_names <- vec_set table_scalar_names I_PROGVAR "ProgressVariable" ;;
  table_scalar_names <-
    (if include_mixture_fraction
     then vec_set table_scalar_names I_MIXFRAC "MixtureFraction"
     else Done table_scalar_names) ;;
  table_scalar_names <-
    for_range n_user_scalars 0
      (fun i_aux names =>
         vec_set names (n_control_vars + i_aux)%nat (GetUserScalarName config i_aux))
      table_scalar_names ;;
  look_up_table <-
    (if generate_manifold
     then name_prog <- vec_get table_scalar_names I_PROGVAR ;;
          name_enth <- vec_get table_scalar_names I_ENTH ;;
          Done (Some (CLookUpTable_ctor (GetFileNameLUT config) name_prog name_enth))
     else Done None) ;;
  let Pressure := value_pressure_operating in
  pp <- PreprocessLookUp n_user_scalars config ;;
  Done {| generate_manifold := generate_manifold;
          n_user_scalars := n_user_scalars;
          n_control_vars := n_control_vars;
          include_mixture_fraction := include_mixture_fraction;
          n_scalars := n_scalars;
          scalars_vector := scalars_vector;
          table_scalar_names := table_scalar_names;
          look_up_table := look_up_table;
          varnames_TD := pp_varnames_TD pp;
          val_vars_TD := pp_val_vars_TD pp;
          varnames_Sources := pp_varnames_Sources pp;
          val_vars_Sources := pp_val_vars_Sources pp;
          varnames_LookUp := pp_varnames_LookUp pp;
          val_vars_LookUp := pp_val_vars_LookUp pp;
          extrapolation := indeterminate_flag;
          Pressure := Pressure;
          Temperature := indeterminate;
          Cp := indeterminate;
          Mu := indeterminate;
          Kt := indeterminate;
          mass_diffusivity := indeterminate;
          molar_weight := indeterminate;
          Density := indeterminate;
          Cv := indeterminate |}.

Definition set_extrapolation (obj : CFluidFlamelet) (flag : nat) : CFluidFlamelet :=
  {| generate_manifold := generate_manifold obj;
     n_user_scalars := n_user_scalars obj;
     n_control_vars := n_control_vars obj;
     include_mixture_fraction := include_mixture_fraction obj;
     n_scalars := n_scalars obj;
     scalars_vector := scalars_vector obj;
     table_scalar_names := table_scalar_names obj;
     look_up_table := look_up_table obj;
     varnames_TD := varnames_TD obj;
     val_vars_TD := val_vars_TD obj;
     varnames_Sources := varnames_Sources obj;
     val_vars_Sources := val_vars_Sources obj;
     varnames_LookUp := varnames_LookUp obj;
     val_vars_LookUp := val_vars_LookUp obj;
     extrapolation := flag;
     Pressure := Pressure obj;
     Temperature := Temperature obj;
     Cp := Cp obj;
     Mu := Mu obj;
     Kt := Kt obj;
     mass_diffusivity := mass_diffusivity obj;
     molar_weight := molar_weight obj;
     Density := Density obj;
     Cv := Cv obj |}.

(** [EvaluateDataSet] returns the flag.  [output_refs] is a vector of the
    caller, passed by reference: the values the table writes into it are
    returned beside the fluid, whose only member assigned here is
    [extrapolation].  A caller that passes one of the fluid's own vectors
    has that member overwritten by the call, and stores the returned
    values in it; [SetTDState_T] below does so with [val_vars_TD]. *)
Definition EvaluateDataSet (obj : CFluidFlamelet) (input_scalar : list A)
  (lookup_type : FLAMELET_LOOKUP_OPS) (output_refs : list A)
  : Outcome (CFluidFlamelet * list A * nat) :=
  val_enth <- vec_get input_scalar I_ENTH ;;
  val_prog <- vec_get input_scalar I_PROGVAR ;;
  val_mixfrac <-
    (if include_mixture_fraction obj
     then vec_get input_scalar I_MIXFRAC
     else Done (lit 0)) ;;
  let varnames :=
    match lookup_type with
    | TD => varnames_TD obj
    | SOURCES => varnames_Sources obj
    | LOOKUP => varnames_LookUp obj
    | OTHER_OP _ => []
    end in
  if negb (List.length output_refs =? List.length varnames)%nat then
    FatalError "Output vector size incompatible with manifold lookup operation."
  else
    match look_up_table obj with
    | None => Undefined
    | Some table =>
        let '(values, flag) :=
          if include_mixture_fraction obj
          then LookUp_XYZ table varnames val_prog val_enth val_mixfrac
          else LookUp_XY table varnames val_prog val_enth in
        Done (set_extrapolation obj flag, values, flag)
    end.

Definition SetTDState_T (obj : CFluidFlamelet) (val_temperature : A)
  (val_scalars : nat -> A) : Outcome CFluidFlamelet :=
  scalars_vector <-
    for_range (n_scalars obj) 0
      (fun iVar v => vec_set v iVar (val_scalars iVar))
      (scalars_vector obj) ;;
  r <- EvaluateDataSet obj scalars_vector TD (val_vars_TD obj) ;;
  let '(obj, val_vars_TD, _) := r in
  Temperature <- vec_get val_vars_TD LOOKUP_TD.TEMPERATURE ;;
  Cp <- vec_get val_vars_TD LOOKUP_TD.HEATCAPACITY ;;
  Mu <- vec_get val_vars_TD LOOKUP_TD.VISCOSITY ;;
  Kt <- vec_get val_vars_TD LOOKUP_TD.CONDUCTIVITY ;;
  mass_diffusivity <- vec_get val_vars_TD LOOKUP_TD.DIFFUSIONCOEFFICIENT ;;
  molar_weight <- vec_get val_vars_TD LOOKUP_TD.MOLARWEIGHT ;;
  let Density := Pressure obj / (molar_weight * UNIVERSAL_GAS_CONSTANT * Temperature) in
  let Cv := Cp - UNIVERSAL_GAS_CONSTANT / molar_weight in
  Done {| generate_manifold := generate_manifold obj;
          n_user_scalars := n_user_scalars obj;
          n_control_vars := n_control_vars obj;
          include_mixture_fraction := include_mixture_fraction obj;
          n_scalars := n_scalars obj;
          scalars_vector := scalars_vector;
          table_scalar_names := table_scalar_names obj;
          look_up_table := look_up_table obj;
          varnames_TD := varnames_TD obj;
          val_vars_TD := val_vars_TD;
          varnames_Sources := varnames_Sources obj;
          val_vars_Sources := val_vars_Sources obj;
          varnames_LookUp := varnames_LookUp obj;
          val_vars_LookUp := val_vars_LookUp obj;
          extrapolation := extrapolation obj;
          Pressure := Pressure obj;
          Temperature := Temperature;
          Cp := Cp;
          Mu := Mu;
          Kt := Kt;
          mass_diffusivity := mass_diffusivity;
          molar_weight := molar_weight;
          Density := Density;
          Cv := Cv |}.

(** A pass over several output groups: the calls a solver makes one after
    the other on the same fluid. *)
Record Query : Type := mkQuery {
  q_input : list A;
  q_type : FLAMELET_LOOKUP_OPS;
  q_refs : list A
}.

Fixpoint evaluate_pass (obj : CFluidFlamelet) (queries : list Query)
  : Outcome CFluidFlamelet :=
  match queries with
  | [] => Done obj
  | q :: rest =>
      r <- EvaluateDataSet obj (q_input q) (q_type q) (q_refs q) ;;
      evaluate_pass (fst (fst r)) rest
  end.

(** The control point a query looks up. *)
Definition control_point (obj : CFluidFlamelet) (input_scalar : list A)
  : Outcome (list A) :=
  val_enth <- vec_get input_scalar I_ENTH ;;
  val_prog <- vec_get input_scalar I_PROGVAR ;;
  if include_mixture_fraction obj
  then val_mixfrac <- vec_get input_scalar I_MIXFRAC ;;
       Done [val_prog; val_enth; val_mixfrac]
  else Done [val_prog; val_enth].

(** What the constructor establishes, and every call keeps, in a fluid
    built with its table and the operating pressure [P]. *)
Definition ready (P : A) (obj : CFluidFlamelet) : Prop :=
  look_up_table obj <> None /\
  Pressure obj = P /\
  List.length (scalars_vector obj) = n_scalars obj /\
  (I_ENTH < n_scalars obj)%nat /\
  (I_PROGVAR < n_scalars obj)%nat /\
  (include_mixture_fraction obj = true -> (I_MIXFRAC < n_scalars obj)%nat) /\
  varnames_TD obj
  = ["Temperature"; "Cp"; "ViscosityDyn"; "Conductivity";
     "DiffusionCoefficient"; "MolarWeightMix"] /\
  List.length (val_vars_TD obj) = LOOKUP_TD.SIZE.

(** The configurations the constructor can index its name table with:
    room for the two control variables, for the mixture fraction when
    there are three, and for the user scalars after the control
    variables. *)
Definition admits (config : CConfig) : bool :=
  (2 <=? GetNScalars config)%nat
  && (if (GetNControlVars config =? 3)%nat then (3 <=? GetNScalars config)%nat else true)
  && ((GetNUserScalars config =? 0)%nat
      || (GetNControlVars config + GetNUserScalars config <=? GetNScalars config)%nat).

(** What a constructor call that returns has built. *)
Definition built (config : CConfig) (P : A) (load_manifold : bool)
  (obj : CFluidFlamelet) : Prop :=
  generate_manifold obj = load_manifold /\
  n_user_scalars obj = GetNUserScalars config /\
  n_control_vars obj = GetNControlVars config /\
  include_mixture_fraction obj = (GetNControlVars config =? 3)%nat /\
  n_scalars obj = GetNScalars config /\
  scalars_vector obj = repeat (lit 0) (GetNScalars config) /\
  List.length (table_scalar_names obj) = GetNScalars config /\
  (look_up_table obj = None <-> load_manifold = false) /\
  Pressure obj = P /\
  varnames_TD obj
  = ["Temperature"; "Cp"; "ViscosityDyn"; "Conductivity";
     "DiffusionCoefficient"; "MolarWeightMix"] /\
  val_vars_TD obj = repeat (lit 0) LOOKUP_TD.SIZE /\
  varnames_Sources obj
  = "ProdRateTot_PV"
    :: map (GetUserSourceName config) (seq 0 (2 * GetNUserScalars config)) /\
  val_vars_Sources obj = repeat (lit 0) (1 + 2 * GetNUserScalars config) /\
  varnames_LookUp obj
  = map (GetLUTLookupName config) (seq 0 (GetNLookups config)) /\
  val_vars_LookUp obj = repeat (lit 0) (GetNLookups config).

(** Every value vector of the fluid has one slot per name of its group. *)
Definition sized (obj : CFluidFlamelet) : Prop :=
  List.length (val_vars_TD obj) = List.length (varnames_TD obj) /\
  List.length (val_vars_Sources obj) = List.length (varnames_Sources obj) /\
  List.length (val_vars_LookUp obj) = List.length (varnames_LookUp obj).

(** The names a lookup group asks for. *)
Definition group_names (obj : CFluidFlamelet) (lookup_type : FLAMELET_LOOKUP_OPS)
  : list string :=
  match lookup_type with
  | TD => varnames_TD obj
  | SOURCES => varnames_Sources obj
  | LOOKUP => varnames_LookUp obj
  | OTHER_OP _ => []
  end.

(** A query the fluid can answer: its control variables are in the input
    vector and its output vector has one slot per name of its group. *)
Definition answerable (obj : CFluidFlamelet) (q : Query) : Prop :=
  (exists point, control_point obj (q_input q) = Done point) /\
  List.length (q_refs q) = List.length (group_names obj (q_type q)).

(** Successive calls of [SetTDState_T], each with its two arguments. *)
Fixpoint run_calls (obj : CFluidFlamelet) (calls : list (A * (nat -> A)))
  : Outcome CFluidFlamelet :=
  match calls with
  | [] => Done obj
  | c :: rest => obj' <- SetTDState_T obj (fst c) (snd c) ;; run_calls obj' rest
  end.

End Fluid.

End Flamelet.

(** ** Concrete manifolds on binary64 *)

Module Stub.

Import DataDriven.
Local Open Scope float_scope.

(** The constant manifold: s = 1000, s_e = 0.002, s_rho = -0.5 and zero
    second derivatives at every point. *)
Definition manifold : Manifold (A := float) :=
  fun _ _ => mkOutputs 1000 0.002 (-0.5) 0 0 0.

Definition ANN (file : string) : Manifold (A := float) := manifold.

Definition config (kind : ENUM_DATADRIVEN_METHOD) (rho0 e0 : float)
  : CConfig (A := float) :=
  mkConfig kind "stub.mlp" 1 rho0 e0.

(** The fluid the constructor builds over the constant perceptron, with
    the given initial guess and relaxation 1. *)
Definition fluid_of (rho0 e0 : float) : Outcome CDataDrivenFluid :=
  CDataDrivenFluid_ctor nan (config MLP rho0 e0).

(** That fluid, written out. *)
Definition fluid (rho0 e0 : float) : CDataDrivenFluid :=
  mkFluid MLP "stub.mlp" 1 rho0 e0
    nan nan nan nan nan nan nan nan nan nan nan nan nan nan nan nan
    nan nan nan nan.

Definition SetTDState_rhoe := DataDriven.SetTDState_rhoe ANN ANN.

(** A manifold with curvature: s_e = 0.7, s_rho = -0.5, s_ee = -1,
    s_erho = 1, s_rhorho = 0 at every point. *)
Definition manifold_curved : Manifold (A := float) :=
  fun _ _ => mkOutputs 0 0.7 (-0.5) (-1) 1 0.

Definition ANN_curved (file : string) : Manifold (A := float) := manifold_curved.

(** Another one, whose s_e has an exact square: s_e = 3, s_rho = -0.5,
    s_ee = -7, s_erho = 5, s_rhorho = 0. *)
Definition manifold_steep : Manifold (A := float) :=
  fun _ _ => mkOutputs 0 3 (-0.5) (-7) 5 0.

Definition ANN_steep (file : string) : Manifold (A := float) := manifold_steep.

End Stub.

(** ** A concrete table on binary64 *)

Module FlameStub.

Import Flamelet.
Local Open Scope string_scope.
Local Open Scope float_scope.

(** A table over the unit square (or cube): a point is inside when every
    coordinate lies between 0 and 1; outside, the closed formulas below
    still give an estimate. *)
Definition table : CLookUpTable (A := float) :=
  mkTable
    (fun name point =>
       let c := hd 0 point in
       if String.eqb name "Temperature" then 300 + 1500 * c
       else if String.eqb name "Cp" then 1000 + 200 * c
       else if String.eqb name "MolarWeightMix" then 0.028
       else 1)
    (forallb (fun x => PrimFloat.leb 0 x && PrimFloat.leb x 1)).

(** Two control variables and one user scalar, "Y_CO". *)
Definition config : CConfig :=
  mkConfig 1 2 3 (fun _ => "Y_CO") "flame.drg"
    (fun i => if Nat.even i then "Y_CO_Prod" else "Y_CO_Cons")
    1 (fun _ => "Heat_Release").

Definition P_operating : float := 101325.
Definition R_universal : float := 8.3144598.

Definition ctor (load_manifold : bool) : Outcome CFluidFlamelet :=
  CFluidFlamelet_ctor (fun _ _ _ => table) nan 0 config P_operating load_manifold.

(** A point outside the table and one inside, with a user scalar each. *)
Definition scalars_outside : list float := [2; 0.5; 0.1].
Definition scalars_inside : list float := [0.5; 0.5; 0.1].

End FlameStub.

(** * Properties of the data-driven fluid *)

Module DataDrivenFacts.

Import DataDriven.

Section Generic.

Context {A : Type} `{Su2Double A}.
Variable CLookUp_ANN : string -> Manifold (A := A).
Variable CLookUpTable : string -> Manifold (A := A).
Local Open Scope su2_scope.

Local Abbreviation SetTDState_rhoe := (SetTDState_rhoe CLookUp_ANN CLookUpTable).
Local Abbreviation backend := (backend CLookUp_ANN CLookUpTable).
Local Abbreviation evaluate_manifold := (evaluate_manifold CLookUp_ANN CLookUpTable).

(** A fluid with a backend reads its six slots from it. *)
Lemma evaluate_manifold_backend (f : CDataDrivenFluid) (m : Manifold) (rho e : A) :
  backend f = Some m -> evaluate_manifold f rho e = m rho e.
Proof.
  unfold DataDriven.backend, DataDriven.evaluate_manifold.
  destruct (Kind_DataDriven_Method f); intros E; inversion E; reflexivity.
Qed.

(** The constructor only yields perceptron fluids. *)
Lemma ctor_backend (indeterminate : A) (config : CConfig) (f : CDataDrivenFluid) :
  CDataDrivenFluid_ctor indeterminate config = Done f ->
  backend f = Some (CLookUp_ANN (GetDataDriven_Filename config)).
Proof.
  unfold CDataDrivenFluid_ctor, DataDriven.backend.
  destruct (GetKind_DataDriven_Method config); simpl; intros E;
    inversion E; reflexivity.
Qed.

(** The evaluator keeps the configuration of the fluid. *)
Lemma SetTDState_rhoe_backend (f : CDataDrivenFluid) (rho e : A) :
  backend (SetTDState_rhoe f rho e) = backend f.
Proof. reflexivity. Qed.

(** The slots after an evaluation are what the manifold returned. *)
Lemma SetTDState_rhoe_slots (f : CDataDrivenFluid) (m : Manifold) (rho e : A) :
  backend f = Some m ->
  let f' := SetTDState_rhoe f rho e in
  mkOutputs (Entropy f') (dsde_rho f') (dsdrho_e f')
            (d2sde2 f') (d2sdedrho f') (d2sdrho2 f') = m rho e.
Proof.
  intros E; simpl. rewrite (evaluate_manifold_backend f rho e E).
  destruct (m rho e); reflexivity.
Qed.

(** *** The forward evaluator *)

(** C1, general part, over any scalar type: the temperature is the
    reciprocal of the manifold's s_e at (rho, e) and the pressure is
    -rho^2 T s_rho. *)
Lemma forward_temperature_pressure (f : CDataDrivenFluid) (m : Manifold) (rho e : A) :
  backend f = Some m ->
  let f' := SetTDState_rhoe f rho e in
  Temperature f' = lit 1 / o_dsde_rho (m rho e) /\
  Pressure f' = - pow rho 2 * Temperature f' * o_dsdrho_e (m rho e).
Proof.
  intros E; simpl. rewrite (evaluate_manifold_backend f rho e E). split; reflexivity.
Qed.

(** The grouping the evaluator computes the squared speed of sound with,
    on the outputs of the manifold, over any scalar type: every quotient
    by s_e but the last is a product with the reciprocal [1 / s_e]. *)
Lemma forward_sound_speed (f : CDataDrivenFluid) (m : Manifold) (rho e : A) :
  backend f = Some m ->
  let s_e := o_dsde_rho (m rho e) in
  let s_rho := o_dsdrho_e (m rho e) in
  let s_ee := o_d2sde2 (m rho e) in
  let s_erho := o_d2sdedrho (m rho e) in
  let s_rhorho := o_d2sdrho2 (m rho e) in
  let r := lit 1 / s_e in
  let blue := s_rho * (lit 2 - rho * r * s_erho) + rho * s_rhorho in
  let green := - r * s_ee * s_rho + s_erho in
  SoundSpeed2 (SetTDState_rhoe f rho e)
  = - rho * r * (blue - rho * green * (s_rho / s_e)).
Proof.
  intros E. cbv zeta. rewrite <- !pow_m1.
  unfold DataDriven.SetTDState_rhoe; cbv zeta; cbn [SoundSpeed2].
  rewrite (evaluate_manifold_backend f rho e E). reflexivity.
Qed.


End Generic.

(** *** The Newton loops *)

Section Solvers.

Context {A : Type} `{Su2Double A}.
Variable CLookUp_ANN : string -> Manifold (A := A).
Variable CLookUpTable : string -> Manifold (A := A).
Local Open Scope su2_scope.

Local Abbreviation SetTDState_rhoe := (SetTDState_rhoe CLookUp_ANN CLookUpTable).
Local Abbreviation forward := (forward CLookUp_ANN CLookUpTable).
Local Abbreviation body := (body CLookUp_ANN CLookUpTable).
Local Abbreviation loop := (loop CLookUp_ANN CLookUpTable).
Local Abbreviation solve := (solve CLookUp_ANN CLookUpTable).
Local Abbreviation run_body := (run_body CLookUp_ANN CLookUpTable).
Local Abbreviation never_within := (never_within CLookUp_ANN CLookUpTable).

(** Evaluating twice at the same point changes nothing more. *)
Lemma SetTDState_rhoe_idem (f : CDataDrivenFluid) (rho e : A) :
  SetTDState_rhoe (SetTDState_rhoe f rho e) rho e = SetTDState_rhoe f rho e.
Proof.
  unfold DataDriven.SetTDState_rhoe, evaluate_manifold; simpl.
  destruct (Kind_DataDriven_Method f); reflexivity.
Qed.

(** The evaluator does not read the energy member. *)
Lemma SetTDState_rhoe_set_StaticEnergy (f : CDataDrivenFluid) (v rho e : A) :
  SetTDState_rhoe (set_StaticEnergy f v) rho e = SetTDState_rhoe f rho e.
Proof. reflexivity. Qed.

Lemma loop_unfold (sv : Solver) (f : CDataDrivenFluid) (a b : A) :
  loop sv f a b = while iter_max loop_cond (body sv a b) (init sv f a b).
Proof. destruct sv; reflexivity. Qed.

(** One turn of a loop, in the words of the specification: evaluate at
    the guess, keep it and raise the flag when every residual is within
    its tolerance, move it by the relaxed Newton step otherwise. *)
Lemma body_spec (sv : Solver) (a b : A) (s : Newton) :
  body sv a b s
  = let f := forward s in
    if within_tolerance sv a b f
    then mkNewton f (rho s) (e s) true (S (Iter s))
    else mkNewton f
           (if updates_density sv
            then rho s - Newton_Relaxation f * fst (newton_step sv a b f)
            else rho s)
           (e s - Newton_Relaxation f * snd (newton_step sv a b f))
           (converged s) (S (Iter s)).
Proof.
  destruct sv; cbv zeta;
    unfold within_tolerance, residuals, forallb, fst, snd;
    rewrite ?andb_true_r;
    unfold DataDriven.body, PT_body, Prho_body, rhoT_body, hs_body, Ps_body,
      tolerance_P, tolerance_T, tolerance_h, tolerance_s, DataDriven.forward;
    cbv zeta;
    match goal with
    | |- (if ?c then _ else _) = (if ?c' then _ else _) =>
        change c' with c; destruct c; reflexivity
    end.
Qed.

Lemma body_fluid (sv : Solver) (a b : A) (s : Newton) :
  fluid (body sv a b s) = forward s.
Proof.
  rewrite body_spec; cbv zeta.
  destruct (within_tolerance sv a b (forward s)); reflexivity.
Qed.

Lemma body_Iter (sv : Solver) (a b : A) (s : Newton) :
  Iter (body sv a b s) = S (Iter s).
Proof.
  rewrite body_spec; cbv zeta.
  destruct (within_tolerance sv a b (forward s)); reflexivity.
Qed.

Lemma body_test (sv : Solver) (a b : A) (s : Newton) :
  converged (body sv a b s) = within_tolerance sv a b (forward s) || converged s.
Proof.
  rewrite body_spec; cbv zeta.
  destruct (within_tolerance sv a b (forward s)); reflexivity.
Qed.

(** A guess that passes the test is kept. *)
Lemma body_keep (sv : Solver) (a b : A) (s : Newton) :
  within_tolerance sv a b (forward s) = true ->
  rho (body sv a b s) = rho s /\ e (body sv a b s) = e s.
Proof.
  intros E. rewrite body_spec; cbv zeta. rewrite E. split; reflexivity.
Qed.

(** A guess that fails it is moved by the relaxed Newton step. *)
Lemma body_update (sv : Solver) (a b : A) (s : Newton) :
  within_tolerance sv a b (forward s) = false ->
  let f := forward s in
  rho (body sv a b s)
  = (if updates_density sv
     then rho s - Newton_Relaxation f * fst (newton_step sv a b f)
     else rho s) /\
  e (body sv a b s) = e s - Newton_Relaxation f * snd (newton_step sv a b f).
Proof.
  intros E. rewrite body_spec; cbv zeta. rewrite E. split; reflexivity.
Qed.

(** **** The loop *)

Lemma while_stop (fuel : nat) (bd : Newton (A := A) -> Newton) (s : Newton) :
  loop_cond s = false -> while fuel loop_cond bd s = s.
Proof. destruct fuel; simpl; intros E; [reflexivity | now rewrite E]. Qed.

Lemma while_step (fuel : nat) (bd : Newton (A := A) -> Newton) (s : Newton) :
  loop_cond s = true ->
  while (S fuel) loop_cond bd s = while fuel loop_cond bd (bd s).
Proof. simpl; intros E; now rewrite E. Qed.

Lemma loop_cond_true (s : Newton (A := A)) :
  loop_cond s = true <-> converged s = false /\ (Iter s < iter_max)%nat.
Proof.
  unfold loop_cond. rewrite andb_true_iff, negb_true_iff, Nat.ltb_lt. tauto.
Qed.

Lemma loop_cond_converged (s : Newton (A := A)) :
  converged s = true -> loop_cond s = false.
Proof. unfold loop_cond; intros E; now rewrite E. Qed.

(** While the test fails the loop goes on, turn after turn. *)
Lemma while_never (sv : Solver) (a b : A) (n k : nat) :
  forall s : Newton,
    never_within n sv a b s = true ->
    converged s = false ->
    (Iter s + n <= iter_max)%nat ->
    while (n + k) loop_cond (body sv a b) s
    = while k loop_cond (body sv a b) (run_body n sv a b s)
    /\ converged (run_body n sv a b s) = false
    /\ Iter (run_body n sv a b s) = (Iter s + n)%nat.
Proof.
  induction n as [|n IH]; intros s Hn Hc Hi.
  - simpl. rewrite Nat.add_0_r. auto.
  - change (negb (within_tolerance sv a b (forward s))
            && never_within n sv a b (body sv a b s) = true) in Hn.
    apply andb_true_iff in Hn as [Hw Hn].
    apply negb_true_iff in Hw.
    assert (Hl : loop_cond s = true) by (apply loop_cond_true; split; [assumption | lia]).
    change (S n + k)%nat with (S (n + k)). rewrite (while_step _ _ _ Hl).
    destruct (IH (body sv a b s) Hn) as (E1 & E2 & E3).
    + rewrite body_test, Hw, Hc. reflexivity.
    + rewrite body_Iter. lia.
    + simpl run_body. rewrite E1, E2, E3, body_Iter. repeat split. lia.
Qed.

(** The first guess that passes the test ends the loop. *)
Lemma while_first (sv : Solver) (a b : A) (n k : nat) :
  forall s : Newton,
    never_within n sv a b s = false ->
    converged s = false ->
    (Iter s + n <= iter_max)%nat ->
    exists j : nat,
      (j < n)%nat
      /\ never_within j sv a b s = true
      /\ within_tolerance sv a b (forward (run_body j sv a b s)) = true
      /\ while (n + k) loop_cond (body sv a b) s
         = body sv a b (run_body j sv a b s).
Proof.
  induction n as [|n IH]; intros s Hn Hc Hi.
  - discriminate.
  - assert (Hl : loop_cond s = true) by (apply loop_cond_true; split; [assumption | lia]).
    change (S n + k)%nat with (S (n + k)). rewrite (while_step _ _ _ Hl).
    change (negb (within_tolerance sv a b (forward s))
            && never_within n sv a b (body sv a b s) = false) in Hn.
    destruct (within_tolerance sv a b (forward s)) eqn:Hw.
    + exists 0%nat. change (run_body 0 sv a b s) with s.
      split; [lia|]. split; [reflexivity|]. split; [assumption|].
      apply while_stop, loop_cond_converged. rewrite body_test, Hw. reflexivity.
    + simpl in Hn. destruct (IH (body sv a b s) Hn) as (j & Hj & Hnj & Hwj & E).
      * rewrite body_test, Hw, Hc. reflexivity.
      * rewrite body_Iter. lia.
      * exists (S j).
        change (run_body (S j) sv a b s) with (run_body j sv a b (body sv a b s)).
        split; [lia|]. split; [|split; assumption].
        change (negb (within_tolerance sv a b (forward s))
                && never_within j sv a b (body sv a b s) = true).
        rewrite Hw, Hnj. reflexivity.
Qed.

(** The loops leave with their condition false: the bound of 1000 turns is
    never what stops the model. *)
Lemma loop_exits (sv : Solver) (f : CDataDrivenFluid) (a b : A) :
  loop_cond (loop sv f a b) = false.
Proof.
  rewrite loop_unfold.
  assert (Hc : converged (init sv f a b) = false) by (destruct sv; reflexivity).
  assert (Hi : Iter (init sv f a b) = 0%nat) by (destruct sv; reflexivity).
  destruct (never_within iter_max sv a b (init sv f a b)) eqn:Hn.
  - destruct (while_never sv a b iter_max 0 (init sv f a b) Hn Hc) as (E1 & E2 & E3);
      [rewrite Hi; lia|].
    rewrite Nat.add_0_r in E1. rewrite E1.
    change (loop_cond (run_body iter_max sv a b (init sv f a b)) = false).
    unfold loop_cond. rewrite E3, Hi, E2, Nat.ltb_irrefl. reflexivity.
  - destruct (while_first sv a b iter_max 0 (init sv f a b) Hn Hc) as (j & _ & _ & Hw & E);
      [rewrite Hi; lia|].
    rewrite Nat.add_0_r in E. rewrite E.
    apply loop_cond_converged. rewrite body_test, Hw. reflexivity.
Qed.

(** The density-fixed solvers keep the density they are given. *)
Lemma while_rho_fixed (sv : Solver) (a b : A) (fuel : nat) :
  updates_density sv = false ->
  forall s : Newton, rho (while fuel loop_cond (body sv a b) s) = rho s.
Proof.
  intros Hu. induction fuel as [|fuel IH]; intros s; simpl; [reflexivity|].
  destruct (loop_cond s); [|reflexivity].
  rewrite IH, body_spec; cbv zeta. rewrite Hu.
  destruct (within_tolerance sv a b (forward s)); reflexivity.
Qed.

(** Every solver ends with an evaluation at the guess its loop left. *)
Lemma solve_forward (sv : Solver) (f : CDataDrivenFluid) (a b : A) :
  solve sv f a b = forward (loop sv f a b).
Proof.
  destruct sv;
    unfold DataDriven.solve, DataDriven.forward, DataDriven.loop,
      SetTDState_PT, SetTDState_rhoT, SetTDState_hs, SetTDState_Ps;
    cbv zeta; [reflexivity | | reflexivity | reflexivity | reflexivity].
  unfold SetTDState_Prho, SetEnergy_Prho, Prho_loop; cbv zeta.
  rewrite SetTDState_rhoe_set_StaticEnergy.
  change (Prho_body CLookUp_ANN CLookUpTable a) with (body Solve_Prho a b).
  rewrite (while_rho_fixed Solve_Prho a b iter_max eq_refl). reflexivity.
Qed.

(** The locals after one more turn. *)
Lemma run_body_succ (sv : Solver) (a b : A) (n : nat) :
  forall s : Newton,
    run_body (S n) sv a b s = body sv a b (run_body n sv a b s).
Proof.
  induction n as [|n IH]; intros s; [reflexivity|]. exact (IH (body sv a b s)).
Qed.

(** The turn counter does not go down over a loop. *)
Lemma while_Iter (sv : Solver) (a b : A) (fuel : nat) :
  forall s : Newton, (Iter s <= Iter (while fuel loop_cond (body sv a b) s))%nat.
Proof.
  induction fuel as [|fuel IH]; intros s; cbn [while]; [apply Nat.le_refl|].
  destruct (loop_cond s); [|apply Nat.le_refl].
  specialize (IH (body sv a b s)). rewrite body_Iter in IH.
  apply Nat.le_trans with (2 := IH). apply Nat.le_succ_diag_r.
Qed.

(** When none of its first [k] guesses passes the test, the loop of a
    solver has taken [k] turns and goes on from the locals they leave. *)
Lemma loop_from (sv : Solver) (f : CDataDrivenFluid) (a b : A) (k : nat) :
  (k <= iter_max)%nat ->
  never_within k sv a b (init sv f a b) = true ->
  loop sv f a b
  = while (iter_max - k) loop_cond (body sv a b) (run_body k sv a b (init sv f a b))
  /\ converged (run_body k sv a b (init sv f a b)) = false
  /\ Iter (run_body k sv a b (init sv f a b)) = k.
Proof.
  intros Hk Hn.
  assert (Hc : converged (init sv f a b) = false) by (destruct sv; reflexivity).
  assert (Hi : Iter (init sv f a b) = 0%nat) by (destruct sv; reflexivity).
  destruct (while_never sv a b k (iter_max - k) (init sv f a b) Hn Hc)
    as (E1 & E2 & E3); [rewrite Hi; exact Hk|].
  rewrite Hi in E3.
  replace (k + (iter_max - k))%nat with iter_max in E1
    by (symmetry; apply Nat.add_comm || idtac; now rewrite Nat.add_comm, Nat.sub_add).
  rewrite loop_unfold. auto.
Qed.

End Solvers.

(** *** The claims on the forward evaluator *)

(** C1.  For every density and energy, [SetTDState_rhoe] sets
    Temperature = 1/s_e and Pressure = -rho^2 * Temperature * s_rho, with
    s_e and s_rho the derivatives the manifold returns at (rho, e); this
    holds over every scalar type.  On binary64, with the constant manifold
    s_e = 0.002, s_rho = -0.5 and zero second derivatives, the evaluation
    at rho = 1.2, e = 2.0e5 gives Temperature = 500 and Pressure = 360
    exactly, and a Cv that is not finite (it is the infinity 1/(-0)). *)
Theorem C1_forward_temperature_pressure :
  (forall (A : Type) (I : Su2Double A) (ann lut : string -> Manifold)
          (f : CDataDrivenFluid) (m : Manifold) (rho e : A),
      backend ann lut f = Some m ->
      let f' := SetTDState_rhoe ann lut f rho e in
      Temperature f' = (lit 1 / o_dsde_rho (m rho e))%su2 /\
      Pressure f' = (- pow rho 2 * Temperature f' * o_dsdrho_e (m rho e))%su2)
  /\
  (exists f : CDataDrivenFluid,
      Stub.fluid_of 1 2.0e5 = Done f /\
      let f' := Stub.SetTDState_rhoe f 1.2 2.0e5 in
      Temperature f' = 500%float /\
      Pressure f' = 360%float /\
      PrimFloat.is_finite (Cv f') = false /\
      PrimFloat.is_infinity (Cv f') = true).
Proof.
  split.
  - intros A I ann lut f m rho e E. exact (forward_temperature_pressure ann lut f rho e E).
  - eexists. split; [reflexivity|]. vm_compute. repeat split.
Qed.

Lemma C1_forward_temperature_pressure_witness :
  let f := Stub.fluid 1 2.0e5 in
  let f' := Stub.SetTDState_rhoe f 1.2 2.0e5 in
  backend Stub.ANN Stub.ANN f = Some Stub.manifold /\
  Temperature f' = (1 / 0.002)%float /\
  Pressure f' = (- (1.2 * 1.2) * Temperature f' * (-0.5))%float.
Proof.
  cbv zeta. split; [reflexivity|].
  exact (proj1 C1_forward_temperature_pressure float binary64 Stub.ANN Stub.ANN
           (Stub.fluid 1 2.0e5) Stub.manifold 1.2%float 2.0e5%float eq_refl).
Defined.

(** C2, as stated, fails on binary64.  On the manifold with s_e = 3,
    s_rho = -0.5, s_ee = -7, s_erho = 5, s_rhorho = 0, at rho = 1.2, the
    evaluator stores a squared speed of sound that differs in its last
    digits from the value of the formula the claim gives, in which
    rho*s_erho/s_e and s_ee/s_e are quotients (whichever of the product
    and the quotient of rho*s_erho/s_e is taken first); the source
    multiplies by the reciprocal of s_e there.  So it does on the manifold
    with s_e = 0.7, s_rho = -0.5, s_ee = -1, s_erho = 1, s_rhorho = 0. *)
Lemma C2_sound_speed_counterexample :
  let f' :=
    DataDriven.SetTDState_rhoe Stub.ANN_steep Stub.ANN_steep (Stub.fluid 1 1)
      1.2%float 1%float in
  let claimed := spec_SoundSpeed2 1.2%float 3%float (-0.5)%float (-7)%float 5%float 0%float in
  let claimed' := spec_SoundSpeed2' 1.2%float 3%float (-0.5)%float (-7)%float 5%float 0%float in
  let g' :=
    DataDriven.SetTDState_rhoe Stub.ANN_curved Stub.ANN_curved (Stub.fluid 1 1)
      1.2%float 1%float in
  let claimed_g := spec_SoundSpeed2 1.2%float 0.7%float (-0.5)%float (-1)%float 1%float 0%float in
  backend Stub.ANN_steep Stub.ANN_steep (Stub.fluid 1 1) = Some Stub.manifold_steep /\
  Stub.manifold_steep 1.2%float 1%float
  = mkOutputs 0%float 3%float (-0.5)%float (-7)%float 5%float 0%float /\
  SoundSpeed2 f' = (-0.30666666666666659)%float /\
  claimed = (-0.30666666666666664)%float /\
  claimed' = (-0.30666666666666664)%float /\
  PrimFloat.eqb (SoundSpeed2 f') claimed = false /\
  PrimFloat.eqb (SoundSpeed2 f') claimed' = false /\
  (SoundSpeed2 f' = claimed -> False) /\
  Stub.manifold_curved 1.2%float 1%float
  = mkOutputs 0%float 0.7%float (-0.5)%float (-1)%float 1%float 0%float /\
  SoundSpeed2 g' = (-0.17492711370262376)%float /\
  claimed_g = (-0.17492711370262395)%float /\
  PrimFloat.eqb (SoundSpeed2 g') claimed_g = false.
Proof.
  cbv zeta. repeat split; try (vm_compute; reflexivity).
  intros E.
  assert (Hx : PrimFloat.eqb
                 (SoundSpeed2
                    (DataDriven.SetTDState_rhoe Stub.ANN_steep Stub.ANN_steep
                       (Stub.fluid 1 1) 1.2%float 1%float))
                 (spec_SoundSpeed2 1.2%float 3%float (-0.5)%float (-7)%float
                    5%float 0%float) = false)
    by (vm_compute; reflexivity).
  rewrite E in Hx. vm_compute in Hx. discriminate Hx.
Qed.

(** C2, amended.  For every density and energy, [SetTDState_rhoe]
    computes the squared speed of sound from the derivatives the manifold
    returns as SoundSpeed2 = -rho*r*(blue - rho*green*(s_rho/s_e)), with
    r = 1/s_e the reciprocal of s_e, blue = s_rho*(2 - rho*r*s_erho)
    + rho*s_rhorho and green = -r*s_ee*s_rho + s_erho: inside blue and
    green the source multiplies by the reciprocal, from left to right,
    where the formula of the specification divides by s_e; only s_rho/s_e
    is a quotient.  This holds over every scalar type. *)
Theorem C2_sound_speed_grouping :
  forall (A : Type) (I : Su2Double A) (ann lut : string -> Manifold)
         (f : CDataDrivenFluid) (m : Manifold) (rho e : A),
    backend ann lut f = Some m ->
    let s_e := o_dsde_rho (m rho e) in
    let s_rho := o_dsdrho_e (m rho e) in
    let s_ee := o_d2sde2 (m rho e) in
    let s_erho := o_d2sdedrho (m rho e) in
    let s_rhorho := o_d2sdrho2 (m rho e) in
    let r := (lit 1 / s_e)%su2 in
    let blue := (s_rho * (lit 2 - rho * r * s_erho) + rho * s_rhorho)%su2 in
    let green := (- r * s_ee * s_rho + s_erho)%su2 in
    SoundSpeed2 (SetTDState_rhoe ann lut f rho e)
    = (- rho * r * (blue - rho * green * (s_rho / s_e)))%su2.
Proof.
  intros A I ann lut f m rho e E. exact (forward_sound_speed ann lut f rho e E).
Qed.

Lemma C2_sound_speed_grouping_witness :
  let f := Stub.fluid 1 1 in
  backend Stub.ANN_curved Stub.ANN_curved f = Some Stub.manifold_curved /\
  SoundSpeed2 (DataDriven.SetTDState_rhoe Stub.ANN_curved Stub.ANN_curved f 1.2%float 1%float)
  = (let s_e := 0.7 in
     let s_rho := -0.5 in
     let r := 1 / s_e in
     let blue := s_rho * (2 - 1.2 * r * 1) + 1.2 * 0 in
     let green := - r * (-1) * s_rho + 1 in
     - 1.2 * r * (blue - 1.2 * green * (s_rho / s_e)))%float.
Proof.
  cbv zeta. split; [reflexivity|].
  exact (@C2_sound_speed_grouping float binary64 Stub.ANN_curved Stub.ANN_curved
           (Stub.fluid 1 1) Stub.manifold_curved 1.2%float 1%float eq_refl).
Defined.




(** *** The claims on the solvers *)

(** C4.  In every solver, as long as no guess has brought all the
    residuals within their absolute tolerances (10 for pressure and
    enthalpy, 1 for temperature and entropy), the loop takes another
    turn, up to the cap of 1000.  At turn [k + 1] it evaluates the fluid
    at the guess the first [k] turns left.  Exactly when all the
    residuals are within tolerance there, the loop declares convergence
    and stops at that turn: it ends with the flag raised, the counter at
    [k + 1] and the guess unchanged, and the solver returns the forward
    state at that guess.  When at least one residual is outside its
    tolerance, the turn moves the guess by the under-relaxed Newton step
    and raises no flag, the loop goes on from the moved guess and, below
    the cap, takes at least one more turn. *)
Theorem C4_convergence_test :
  forall (A : Type) (I : Su2Double A) (ann lut : string -> Manifold)
         (sv : Solver) (f : CDataDrivenFluid) (a b : A) (k : nat),
    (k < iter_max)%nat ->
    never_within ann lut k sv a b (init sv f a b) = true ->
    let s := run_body ann lut k sv a b (init sv f a b) in
    let F := forward ann lut s in
    let l := loop ann lut sv f a b in
    within_tolerance sv a b F
    = match sv with
      | Solve_PT =>
          (abs (Pressure F - a) <? lit 10) && (abs (Temperature F - b) <? lit 1)
      | Solve_Prho => abs (Pressure F - a) <? lit 10
      | Solve_rhoT => abs (Temperature F - b) <? lit 1
      | Solve_hs =>
          (abs (e s + Pressure F / rho s - a) <? lit 10)
          && (abs (Entropy F - b) <? lit 1)
      | Solve_Ps =>
          (abs (Pressure F - a) <? lit 10) && (abs (Entropy F - b) <? lit 1)
      end%su2 /\
    (within_tolerance sv a b F = true ->
     converged l = true /\
     Iter l = S k /\
     rho l = rho s /\ e l = e s /\
     fluid l = F /\
     solve ann lut sv f a b = F) /\
    (within_tolerance sv a b F = false ->
     let s' := run_body ann lut (S k) sv a b (init sv f a b) in
     fluid s' = F /\
     converged s' = false /\
     Iter s' = S k /\
     rho s'
     = (if updates_density sv
        then rho s - Newton_Relaxation F * fst (newton_step sv a b F)
        else rho s)%su2 /\
     e s' = (e s - Newton_Relaxation F * snd (newton_step sv a b F))%su2 /\
     l = while (iter_max - S k) loop_cond (body ann lut sv a b) s' /\
     (S k <= Iter l)%nat /\
     ((S k < iter_max)%nat -> (S k < Iter l)%nat)).
Proof.
  intros A I ann lut sv f a b k Hk Hn s F l.
  destruct (loop_from ann lut sv f a b (Nat.lt_le_incl _ _ Hk) Hn) as (El & Hc & Hi).
  fold s in El, Hc, Hi. fold l in El.
  assert (Hl : loop_cond s = true)
    by (apply loop_cond_true; split; [exact Hc | rewrite Hi; exact Hk]).
  assert (Ef : (iter_max - k = S (iter_max - S k))%nat) by lia.
  rewrite Ef, (while_step _ _ _ Hl) in El.
  split.
  { subst F. destruct sv; unfold within_tolerance, residuals, forallb, fst, snd;
      rewrite ?andb_true_r; reflexivity. }
  split; intros Hw.
  - assert (Eb : l = body ann lut sv a b s).
    { rewrite El. apply while_stop, loop_cond_converged.
      rewrite body_test. fold F. rewrite Hw. reflexivity. }
    destruct (body_keep ann lut sv a b s Hw) as [E1 E2].
    split; [rewrite Eb, body_test; fold F; rewrite Hw; reflexivity|].
    split; [rewrite Eb, body_Iter, Hi; reflexivity|].
    split; [rewrite Eb; exact E1|]. split; [rewrite Eb; exact E2|].
    split; [rewrite Eb; apply body_fluid|].
    rewrite solve_forward. fold l. rewrite Eb. unfold forward at 1.
    rewrite body_fluid, E1, E2. unfold F, forward. apply SetTDState_rhoe_idem.
  - intros s'.
    assert (Es : s' = body ann lut sv a b s) by (subst s' s; apply run_body_succ).
    destruct (body_update ann lut sv a b s Hw) as [E1 E2].
    assert (Hi' : Iter s' = S k) by (rewrite Es, body_Iter, Hi; reflexivity).
    assert (Hc' : converged s' = false)
      by (rewrite Es, body_test; fold F; rewrite Hw, Hc; reflexivity).
    split; [rewrite Es; apply body_fluid|].
    split; [exact Hc'|]. split; [exact Hi'|].
    split; [rewrite Es; exact E1|]. split; [rewrite Es; exact E2|].
    rewrite <- Es in El.
    split; [exact El|].
    split.
    + rewrite El, <- Hi' at 1. apply while_Iter.
    + intros Hk'.
      assert (Hl' : loop_cond s' = true)
        by (apply loop_cond_true; split; [exact Hc' | rewrite Hi'; exact Hk']).
      assert (Ef' : (iter_max - S k = S (iter_max - S (S k)))%nat) by lia.
      rewrite El, Ef', (while_step _ _ _ Hl').
      apply Nat.lt_le_trans with (Iter (body ann lut sv a b s')).
      * rewrite body_Iter, Hi'. apply Nat.lt_succ_diag_r.
      * apply while_Iter.
Qed.

Lemma C4_convergence_test_witness :
  let f := Stub.fluid 1 2.0e5 in
  let s := run_body Stub.ANN Stub.ANN 0 Solve_PT 360%float 500%float
             (init Solve_PT f 360%float 500%float) in
  let s' := run_body Stub.ANN Stub.ANN 1 Solve_PT 360%float 500%float
              (init Solve_PT f 360%float 500%float) in
  (0 < iter_max)%nat /\
  never_within Stub.ANN Stub.ANN 0 Solve_PT 360%float 500%float
    (init Solve_PT f 360%float 500%float) = true /\
  within_tolerance Solve_PT 360%float 500%float (forward Stub.ANN Stub.ANN s) = false /\
  converged s' = false /\
  Iter s' = 1%nat /\
  (1 < Iter (loop Stub.ANN Stub.ANN Solve_PT f 360%float 500%float))%nat.
Proof.
  cbv zeta.
  assert (Hk : (0 < iter_max)%nat) by (unfold iter_max; lia).
  assert (Hw : within_tolerance Solve_PT 360%float 500%float
                 (forward Stub.ANN Stub.ANN
                    (run_body Stub.ANN Stub.ANN 0 Solve_PT 360%float 500%float
                       (init Solve_PT (Stub.fluid 1 2.0e5) 360%float 500%float)))
               = false)
    by (vm_compute; reflexivity).
  split; [exact Hk|]. split; [reflexivity|]. split; [exact Hw|].
  destruct (proj2 (proj2
              (@C4_convergence_test float binary64 Stub.ANN Stub.ANN Solve_PT
                 (Stub.fluid 1 2.0e5) 360%float 500%float 0 Hk eq_refl)) Hw)
    as (_ & E2 & E3 & _ & _ & _ & _ & E8).
  split; [exact E2|]. split; [exact E3|].
  apply E8. unfold iter_max. lia.
Defined.



(** C6, as stated, fails: on the constant manifold, started from the guess
    (1, 2.0e5), the pressure-temperature solver given the pressure and
    temperature of the forward state at (1.2, 2.0e5) takes its 1000 turns
    without converging and leaves a density that is not a number. *)
Lemma C6_round_trip_counterexample :
  let f := Stub.fluid 1 2.0e5 in
  let t := targets Solve_PT (Stub.SetTDState_rhoe f 1.2 2.0e5) in
  let s := loop Stub.ANN Stub.ANN Solve_PT f (fst t) (snd t) in
  let f' := solve Stub.ANN Stub.ANN Solve_PT f (fst t) (snd t) in
  t = (360%float, 500%float) /\
  converged s = false /\
  Iter s = 1000%nat /\
  within_tolerance Solve_PT (fst t) (snd t) f' = false /\
  PrimFloat.is_nan (Density f') = true /\
  (reconverges Stub.ANN Stub.ANN Solve_PT f 1.2%float 2.0e5%float -> False).
Proof.
  cbv zeta. repeat split; try (vm_compute; reflexivity).
  unfold reconverges. intros [E _]. vm_compute in E. discriminate E.
Qed.

(** C6, amended.  For every density and energy and each of the five
    solvers, given as targets what the forward evaluation produces: if
    one of the first 1000 guesses of the Newton iteration brings all the
    residuals within tolerance, the solver ends converged, on a forward
    state whose residuals against the targets are within the
    tolerances. *)
Theorem C6_round_trip_when_reached :
  forall (A : Type) (I : Su2Double A) (ann lut : string -> Manifold)
         (sv : Solver) (f : CDataDrivenFluid) (rho0 e0 : A),
    let t := targets sv (SetTDState_rhoe ann lut f rho0 e0) in
    never_within ann lut iter_max sv (fst t) (snd t)
      (init sv f (fst t) (snd t)) = false ->
    reconverges ann lut sv f rho0 e0.
Proof.
  intros A I ann lut sv f rho0 e0 t Hn. unfold reconverges. fold t.
  generalize dependent t. intros t. generalize (fst t) (snd t). clear t.
  intros a b Hn.
  assert (Hc : converged (init sv f a b) = false) by (destruct sv; reflexivity).
  assert (Hi : Iter (init sv f a b) = 0%nat) by (destruct sv; reflexivity).
  destruct (while_first ann lut sv a b iter_max 0 (init sv f a b) Hn Hc)
    as (j & _ & _ & Hw & E); [rewrite Hi; lia|].
  rewrite Nat.add_0_r in E.
  rewrite solve_forward, loop_unfold, E. split.
  - rewrite body_test, Hw. reflexivity.
  - unfold forward at 1. rewrite body_fluid.
    destruct (body_keep ann lut sv a b _ Hw) as [-> ->].
    unfold forward at 1. rewrite SetTDState_rhoe_idem. exact Hw.
Qed.

Lemma C6_round_trip_when_reached_witness :
  let f := Stub.fluid 1.2 2.0e5 in
  let t := targets Solve_PT (Stub.SetTDState_rhoe f 1.2 2.0e5) in
  never_within Stub.ANN Stub.ANN iter_max Solve_PT (fst t) (snd t)
    (init Solve_PT f (fst t) (snd t)) = false /\
  reconverges Stub.ANN Stub.ANN Solve_PT f 1.2%float 2.0e5%float.
Proof.
  cbv zeta.
  match goal with
  | |- ?G /\ _ => assert (Hn : G) by (vm_compute; reflexivity)
  end.
  split; [exact Hn|].
  exact (C6_round_trip_when_reached binary64 Stub.ANN Stub.ANN Solve_PT
           (Stub.fluid 1.2 2.0e5) 1.2%float 2.0e5%float Hn).
Defined.

(** *** The claim on the constructor *)

(** C7, as stated, fails: a configuration that selects the table is
    refused with the fatal error. *)
Lemma C7_constructor_counterexample :
  CDataDrivenFluid_ctor nan (Stub.config LUT 1 2.0e5)
  = FatalError
      "Only multi-layer perceptrons are currently accepted for data-driven fluid models.".
Proof. reflexivity. Qed.

(** C7, amended.  Construction succeeds exactly when the configured
    backend is the perceptron, and yields a perceptron fluid with the
    configured relaxation and initial guess; for every other value of the
    enumeration, the table included, it aborts with the fatal error. *)
Theorem C7_constructor_accepts_perceptron_only :
  forall (A : Type) (I : Su2Double A) (indeterminate : A) (config : CConfig),
    match GetKind_DataDriven_Method config with
    | MLP =>
        exists f : CDataDrivenFluid,
          CDataDrivenFluid_ctor indeterminate config = Done f /\
          Kind_DataDriven_Method f = MLP /\
          input_filename f = GetDataDriven_Filename config /\
          Newton_Relaxation f = GetRelaxation_DataDriven config /\
          rho_start f = GetDensity_Init_DataDriven config /\
          e_start f = GetEnergy_Init_DataDriven config
    | LUT | OTHER_METHOD _ =>
        CDataDrivenFluid_ctor indeterminate config
        = FatalError
            "Only multi-layer perceptrons are currently accepted for data-driven fluid models."
    end.
Proof.
  intros A I indeterminate config. unfold CDataDrivenFluid_ctor.
  destruct (GetKind_DataDriven_Method config); simpl; try reflexivity.
  eexists. repeat split.
Qed.

End DataDrivenFacts.

(** * Properties of the flamelet fluid *)

Module FlameletFacts.

Import Flamelet.

(** A [bind] that ends in [Done] went through [Done]. *)
Lemma bind_Done {T U} (m : Outcome T) (k : T -> Outcome U) (u : U) :
  bind m k = Done u -> exists v, m = Done v /\ k v = Done u.
Proof. destruct m; simpl; intros E; try discriminate. eauto. Qed.

Ltac bind_inv H :=
  let v := fresh "v" in
  let E := fresh "E" in
  apply bind_Done in H as (v & E & H).

(** *** Vectors *)

Lemma vec_set_Done {T} (v : list T) (i : nat) (x : T) (v' : list T) :
  vec_set v i x = Done v' ->
  (i < List.length v)%nat /\ List.length v' = List.length v.
Proof.
  revert i v'. induction v as [|y v IH]; intros [|i] v' E; simpl in E;
    try discriminate.
  - inversion E; subst. simpl. lia.
  - bind_inv E. inversion E; subst. destruct (IH _ _ E0). simpl. lia.
Qed.

Lemma vec_set_app {T} (pre post : list T) (y x : T) :
  vec_set (pre ++ y :: post) (List.length pre) x = Done (pre ++ x :: post).
Proof.
  induction pre as [|z pre IH]; simpl; [reflexivity|]. now rewrite IH.
Qed.

Lemma vec_get_map_seq {T} (g : nat -> T) (n i : nat) :
  (i < n)%nat -> vec_get (map g (seq 0 n)) i = Done (g i).
Proof.
  intros Hi. unfold vec_get.
  rewrite (nth_error_nth' _ (g 0%nat)) by (now rewrite length_map, length_seq).
  rewrite (map_nth g), seq_nth by assumption. reflexivity.
Qed.

Lemma length_resize {T} (n : nat) (d : T) (v : list T) :
  List.length (resize n d v) = n.
Proof.
  unfold resize. rewrite length_app, length_firstn, repeat_length. lia.
Qed.

(** Copying [count] entries of an array into the tail of a vector. *)
Lemma for_range_copy {T} (g : nat -> T) (count : nat) :
  forall (pre post : list T),
    List.length post = count ->
    for_range count (List.length pre) (fun i v => vec_set v i (g i)) (pre ++ post)
    = Done (pre ++ map g (seq (List.length pre) count)).
Proof.
  induction count as [|count IH]; intros pre post Hl.
  - destruct post; [|discriminate]. reflexivity.
  - destruct post as [|y post]; [discriminate|]. simpl for_range.
    rewrite vec_set_app. simpl bind.
    replace (pre ++ g (List.length pre) :: post)
      with ((pre ++ [g (List.length pre)]) ++ post)
      by (now rewrite <- app_assoc).
    replace (S (List.length pre)) with (List.length (pre ++ [g (List.length pre)]))
      by (rewrite length_app; simpl; lia).
    rewrite IH by (simpl in Hl; lia).
    rewrite <- app_assoc. rewrite length_app. simpl.
    replace (List.length pre + 1)%nat with (S (List.length pre)) by lia.
    reflexivity.
Qed.

(** *** Construction and the thermodynamic lookup *)

Section Generic.

Context {A : Type} `{Su2Double A}.
Variable CLookUpTable_ctor : string -> string -> string -> CLookUpTable (A := A).
Variable UNIVERSAL_GAS_CONSTANT : A.
Variable indeterminate : A.
Variable indeterminate_flag : nat.
Local Open Scope string_scope.
Local Open Scope su2_scope.

Local Abbreviation CFluidFlamelet_ctor :=
  (CFluidFlamelet_ctor CLookUpTable_ctor indeterminate indeterminate_flag).
Local Abbreviation SetTDState_T := (SetTDState_T UNIVERSAL_GAS_CONSTANT).
Local Abbreviation run_calls := (run_calls UNIVERSAL_GAS_CONSTANT).

Lemma PreprocessLookUp_TD (n : nat) (config : CConfig) (pp : LookUpTables (A := A)) :
  PreprocessLookUp n config = Done pp ->
  pp_varnames_TD pp
  = ["Temperature"; "Cp"; "ViscosityDyn"; "Conductivity";
     "DiffusionCoefficient"; "MolarWeightMix"]
  /\ List.length (pp_val_vars_TD pp) = LOOKUP_TD.SIZE.
Proof.
  unfold PreprocessLookUp. cbn [resize LOOKUP_TD.SIZE firstn repeat Nat.sub app
    List.length vec_set bind LOOKUP_TD.TEMPERATURE LOOKUP_TD.HEATCAPACITY
    LOOKUP_TD.VISCOSITY LOOKUP_TD.CONDUCTIVITY LOOKUP_TD.DIFFUSIONCOEFFICIENT
    LOOKUP_TD.MOLARWEIGHT].
  intros E. bind_inv E. bind_inv E. bind_inv E. inversion E; subst.
  split; reflexivity.
Qed.

Lemma ctor_ready (config : CConfig) (P : A) (obj : CFluidFlamelet) :
  CFluidFlamelet_ctor config P true = Done obj -> ready P obj.
Proof.
  unfold Flamelet.CFluidFlamelet_ctor. intros E.
  bind_inv E. bind_inv E. bind_inv E. bind_inv E. bind_inv E. bind_inv E.
  inversion E; subst; clear E.
  destruct (PreprocessLookUp_TD _ _ E5) as [Hn Hv].
  apply vec_set_Done in E0 as [Hi0 Hl0]. rewrite length_resize in Hi0, Hl0.
  apply vec_set_Done in E1 as [Hi1 Hl1]. rewrite Hl0 in Hi1, Hl1.
  unfold ready; cbn [look_up_table Pressure scalars_vector n_scalars
    include_mixture_fraction varnames_TD val_vars_TD].
  split.
  { bind_inv E4. bind_inv E4. inversion E4. discriminate. }
  split; [reflexivity|]. split; [apply length_resize|].
  split; [assumption|]. split; [assumption|].
  split; [|split; assumption].
  intros Hm. rewrite Hm in E2.
  apply vec_set_Done in E2 as [Hi2 _]. now rewrite Hl1 in Hi2.
Qed.

(** The control point of a copy of the caller's array. *)
Lemma control_point_copy (obj : CFluidFlamelet (A := A)) (sc : nat -> A) :
  (I_ENTH < n_scalars obj)%nat ->
  (I_PROGVAR < n_scalars obj)%nat ->
  (include_mixture_fraction obj = true -> (I_MIXFRAC < n_scalars obj)%nat) ->
  control_point obj (map sc (seq 0 (n_scalars obj)))
  = Done (if include_mixture_fraction obj
          then [sc I_PROGVAR; sc I_ENTH; sc I_MIXFRAC]
          else [sc I_PROGVAR; sc I_ENTH]).
Proof.
  intros He Hp Hm. unfold control_point.
  rewrite !vec_get_map_seq by assumption. cbn [bind].
  destruct (include_mixture_fraction obj); [|reflexivity].
  rewrite vec_get_map_seq by (now apply Hm). reflexivity.
Qed.

(** A ready fluid answers [SetTDState_T], stays ready, and holds the
    values of the table at the control point with the ideal-gas closure. *)
Lemma SetTDState_T_ready (P : A) (obj : CFluidFlamelet) (T : A) (sc : nat -> A) :
  ready P obj ->
  exists (obj' : CFluidFlamelet) (table : CLookUpTable) (point : list A),
    SetTDState_T obj T sc = Done obj' /\
    ready P obj' /\
    look_up_table obj = Some table /\
    control_point obj (map sc (seq 0 (n_scalars obj))) = Done point /\
    Temperature obj' = tab_value table "Temperature" point /\
    Cp obj' = tab_value table "Cp" point /\
    molar_weight obj' = tab_value table "MolarWeightMix" point /\
    Density obj'
    = P / (molar_weight obj' * UNIVERSAL_GAS_CONSTANT * Temperature obj') /\
    Cv obj' = Cp obj' - UNIVERSAL_GAS_CONSTANT / molar_weight obj'.
Proof.
  intros (Ht & HP & Hl & He & Hp & Hm & Hn & Hv).
  destruct (look_up_table obj) as [table|] eqn:Etab; [clear Ht | now destruct Ht].
  pose proof (control_point_copy obj sc He Hp Hm) as Ecp.
  pose proof (for_range_copy sc [] (scalars_vector obj) Hl) as Ecopy.
  cbn [List.length app] in Ecopy.
  unfold Flamelet.SetTDState_T. rewrite Ecopy. cbn [bind].
  unfold EvaluateDataSet.
  rewrite !vec_get_map_seq by assumption. cbn [bind].
  rewrite Hn, Hv, Etab.
  destruct (include_mixture_fraction obj) eqn:Einc.
  - rewrite vec_get_map_seq by (now apply Hm). cbn.
    eexists _, table, _. split; [reflexivity|].
    split.
    { unfold ready; cbn. rewrite Etab, length_map, length_seq, Einc.
      repeat split; try assumption; discriminate. }
    split; [reflexivity|]. split; [exact Ecp|].
    cbn. rewrite HP. repeat split.
  - cbn.
    eexists _, table, _. split; [reflexivity|].
    split.
    { unfold ready; cbn. rewrite Etab, length_map, length_seq, Einc.
      repeat split; try assumption; discriminate. }
    split; [reflexivity|]. split; [exact Ecp|].
    cbn. rewrite HP. repeat split.
Qed.

Lemma run_calls_ready (P : A) (calls : list (A * (nat -> A))) :
  forall obj : CFluidFlamelet,
    ready P obj ->
    exists obj' : CFluidFlamelet, run_calls obj calls = Done obj' /\ ready P obj'.
Proof.
  induction calls as [|c calls IH]; intros obj Hr; simpl.
  - eauto.
  - destruct (SetTDState_T_ready (fst c) (snd c) Hr) as (obj1 & _ & _ & E & Hr1 & _).
    rewrite E. simpl. apply IH, Hr1.
Qed.

End Generic.

(** *** Lookups *)

Section Lookups.

Context {A : Type} `{Su2Double A}.
Local Open Scope string_scope.

(** [EvaluateDataSet] reads the control point, checks the number of slots,
    queries the table and stores the flag of that query. *)
Lemma EvaluateDataSet_eq (obj : CFluidFlamelet (A := A)) (input : list A)
  (ty : FLAMELET_LOOKUP_OPS) (out : list A) :
  EvaluateDataSet obj input ty out
  = (point <- control_point obj input ;;
     if negb (List.length out =? List.length (group_names obj ty))%nat
     then FatalError "Output vector size incompatible with manifold lookup operation."
     else match look_up_table obj with
          | None => Undefined
          | Some table =>
              let flag := if tab_inside table point then 0%nat else 1%nat in
              Done (set_extrapolation obj flag,
                    map (fun name => tab_value table name point) (group_names obj ty),
                    flag)
          end).
Proof.
  unfold EvaluateDataSet, control_point, group_names.
  repeat match goal with
         | |- _ = _ => reflexivity
         | |- context [vec_get ?v ?i] => destruct (vec_get v i); cbn [bind]
         | |- context [include_mixture_fraction ?o] =>
             destruct (include_mixture_fraction o)
         | |- context [negb ?c] => destruct (negb c)
         | |- context [look_up_table ?o] => destruct (look_up_table o)
         end.
Qed.

(** An answerable query is answered, with the flag of its own point. *)
Lemma EvaluateDataSet_answer (obj : CFluidFlamelet (A := A)) (table : CLookUpTable)
  (input : list A) (ty : FLAMELET_LOOKUP_OPS) (out point : list A) :
  look_up_table obj = Some table ->
  control_point obj input = Done point ->
  List.length out = List.length (group_names obj ty) ->
  let flag := if tab_inside table point then 0%nat else 1%nat in
  EvaluateDataSet obj input ty out
  = Done (set_extrapolation obj flag,
          map (fun name => tab_value table name point) (group_names obj ty),
          flag).
Proof.
  intros Et Ep El. rewrite EvaluateDataSet_eq, Ep. cbn [bind].
  rewrite El, Nat.eqb_refl, Et. reflexivity.
Qed.

(** After a pass the flag is the one of the last query. *)
Lemma evaluate_pass_last (table : CLookUpTable (A := A)) (q : Query) (qs : list Query) :
  forall obj : CFluidFlamelet,
    look_up_table obj = Some table ->
    Forall (answerable obj) (qs ++ [q]) ->
    exists (obj' : CFluidFlamelet) (point : list A),
      evaluate_pass obj (qs ++ [q]) = Done obj' /\
      control_point obj (q_input q) = Done point /\
      extrapolation obj' = (if tab_inside table point then 0 else 1)%nat.
Proof.
  induction qs as [|q0 qs IH]; intros obj Et Hq.
  - inversion Hq as [|? ? [[point Ep] El] _]; subst.
    exists (set_extrapolation obj (if tab_inside table point then 0 else 1)%nat), point.
    cbn [app evaluate_pass]. rewrite (EvaluateDataSet_answer _ _ _ _ Et Ep El).
    repeat split; try reflexivity; assumption.
  - inversion Hq as [|? ? [[point0 Ep0] El0] Hrest]; subst.
    cbn [app evaluate_pass]. rewrite (EvaluateDataSet_answer _ _ _ _ Et Ep0 El0).
    cbn [bind fst].
    apply (IH (set_extrapolation obj (if tab_inside table point0 then 0 else 1)%nat));
      [exact Et | exact Hrest].
Qed.

End Lookups.

(** *** The claims on the flamelet fluid *)

(** C8, as stated, fails: in a pass of two queries the first of which is
    outside the table (it returns the flag 1) and the second inside, the
    flag the fluid holds at the end is 0. *)
Lemma C8_flag_counterexample :
  exists obj : CFluidFlamelet,
    FlameStub.ctor true = Done obj /\
    (exists obj1 values,
        EvaluateDataSet obj FlameStub.scalars_outside TD (val_vars_TD obj)
        = Done (obj1, values, 1%nat)) /\
    (exists obj2,
        evaluate_pass obj
          [mkQuery FlameStub.scalars_outside TD (val_vars_TD obj);
           mkQuery FlameStub.scalars_inside SOURCES (val_vars_Sources obj)]
        = Done obj2 /\
        extrapolation obj2 = 0%nat).
Proof.
  eexists. split; [vm_compute; reflexivity|]. split.
  - eexists _, _. vm_compute. reflexivity.
  - eexists. split; vm_compute; reflexivity.
Qed.

(** C8, amended.  Every call of [EvaluateDataSet] assigns the flag of its
    own query, raised exactly when its control point is outside the table:
    a fluid with a table answers an answerable query with that flag, and
    after a pass of several answerable queries the flag the fluid holds is
    the one of the last query, whatever the earlier ones returned. *)
Theorem C8_flag_is_that_of_the_last_query :
  forall (A : Type) (I : Su2Double A) (obj : CFluidFlamelet)
         (table : CLookUpTable) (qs : list Query) (q : Query),
    look_up_table obj = Some table ->
    Forall (answerable obj) (qs ++ [q]) ->
    exists (obj' : CFluidFlamelet) (point : list A),
      control_point obj (q_input q) = Done point /\
      (exists values,
          EvaluateDataSet obj (q_input q) (q_type q) (q_refs q)
          = Done (set_extrapolation obj (if tab_inside table point then 0 else 1)%nat,
                  values,
                  (if tab_inside table point then 0 else 1)%nat)) /\
      evaluate_pass obj (qs ++ [q]) = Done obj' /\
      extrapolation obj' = (if tab_inside table point then 0 else 1)%nat.
Proof.
  intros A I obj table qs q Et Hq.
  destruct (evaluate_pass_last q qs Et Hq) as (obj' & point & E & Ep & Ef).
  exists obj', point. split; [exact Ep|]. split; [|split; assumption].
  apply Forall_app in Hq as [_ Hq]. inversion Hq as [|? ? [_ El] _]; subst.
  eexists. exact (EvaluateDataSet_answer _ _ _ _ Et Ep El).
Qed.

Lemma C8_flag_is_that_of_the_last_query_witness :
  exists (obj obj' : CFluidFlamelet),
    FlameStub.ctor true = Done obj /\
    evaluate_pass obj
      ([mkQuery FlameStub.scalars_inside TD (val_vars_TD obj)]
       ++ [mkQuery FlameStub.scalars_outside SOURCES (val_vars_Sources obj)])
    = Done obj' /\
    extrapolation obj' = 1%nat.
Proof.
  assert (E : exists o, FlameStub.ctor true = Done o)
    by (vm_compute; eexists; reflexivity).
  destruct E as [obj E]. exists obj.
  assert (Et : look_up_table obj = Some FlameStub.table)
    by (vm_compute in E; inversion E; reflexivity).
  assert (Hq : Forall (answerable obj)
                 ([mkQuery FlameStub.scalars_inside TD (val_vars_TD obj)]
                  ++ [mkQuery FlameStub.scalars_outside SOURCES (val_vars_Sources obj)])).
  { vm_compute in E; inversion E; subst obj.
    repeat constructor; eexists; reflexivity. }
  destruct (@C8_flag_is_that_of_the_last_query float binary64 obj FlameStub.table
              [mkQuery FlameStub.scalars_inside TD (val_vars_TD obj)]
              (mkQuery FlameStub.scalars_outside SOURCES (val_vars_Sources obj))
              Et Hq)
    as (obj' & point & Ep & _ & Epass & Ef).
  exists obj'. split; [exact E|]. split; [exact Epass|].
  rewrite Ef.
  assert (Ep' : control_point obj FlameStub.scalars_outside = Done [2%float; 0.5%float])
    by (vm_compute in E; inversion E; reflexivity).
  cbn [q_input] in Ep. rewrite Ep' in Ep. inversion Ep; subst point.
  reflexivity.
Defined.

(** C9.  At every call of [SetTDState_T] on a fluid constructed with its
    table, whatever calls came before and whatever the arguments, the call
    returns, with Density = P_operating / (molar_weight * R_universal *
    Temperature) and Cv = Cp - R_universal / molar_weight, where
    Temperature, Cp and molar_weight are the values of the table at the
    control point and P_operating is the pressure given at construction. *)
Theorem C9_ideal_gas_closure :
  forall (A : Type) (I : Su2Double A)
         (CLookUpTable_ctor : string -> string -> string -> CLookUpTable)
         (UNIVERSAL_GAS_CONSTANT indeterminate : A) (indeterminate_flag : nat)
         (config : CConfig) (P_operating : A) (obj0 : CFluidFlamelet)
         (calls : list (A * (nat -> A)))
         (val_temperature : A) (val_scalars : nat -> A),
    CFluidFlamelet_ctor CLookUpTable_ctor indeterminate indeterminate_flag
      config P_operating true = Done obj0 ->
    exists (obj obj' : CFluidFlamelet) (table : CLookUpTable) (point : list A),
      run_calls UNIVERSAL_GAS_CONSTANT obj0 calls = Done obj /\
      SetTDState_T UNIVERSAL_GAS_CONSTANT obj val_temperature val_scalars = Done obj' /\
      look_up_table obj = Some table /\
      control_point obj (map val_scalars (seq 0 (n_scalars obj))) = Done point /\
      Temperature obj' = tab_value table "Temperature" point /\
      Cp obj' = tab_value table "Cp" point /\
      molar_weight obj' = tab_value table "MolarWeightMix" point /\
      Density obj'
      = (P_operating
         / (molar_weight obj' * UNIVERSAL_GAS_CONSTANT * Temperature obj'))%su2 /\
      Cv obj' = (Cp obj' - UNIVERSAL_GAS_CONSTANT / molar_weight obj')%su2.
Proof.
  intros A I tctor R ind indf config P obj0 calls T sc E.
  apply ctor_ready in E.
  destruct (run_calls_ready R calls E) as (obj & Er & Hr).
  destruct (SetTDState_T_ready R T sc Hr)
    as (obj' & table & point & E1 & _ & E2 & E3 & E4 & E5 & E6 & E7 & E8).
  exists obj, obj', table, point. repeat split; assumption.
Qed.

Lemma C9_ideal_gas_closure_witness :
  exists (obj0 obj' : CFluidFlamelet),
    FlameStub.ctor true = Done obj0 /\
    SetTDState_T FlameStub.R_universal obj0 0%float
      (fun i => nth i FlameStub.scalars_inside 0%float) = Done obj' /\
    Density obj'
    = (FlameStub.P_operating
       / (molar_weight obj' * FlameStub.R_universal * Temperature obj'))%float.
Proof.
  assert (E : exists o, FlameStub.ctor true = Done o)
    by (vm_compute; eexists; reflexivity).
  destruct E as [obj0 E]. exists obj0.
  destruct (@C9_ideal_gas_closure float binary64 (fun _ _ _ => FlameStub.table)
              FlameStub.R_universal nan 0%nat FlameStub.config
              FlameStub.P_operating obj0 [] 0%float
              (fun i => nth i FlameStub.scalars_inside 0%float) E)
    as (obj & obj' & table & point & Er & E1 & _ & _ & _ & _ & _ & E7 & _).
  cbn [run_calls] in Er. inversion Er; subst obj.
  exists obj'. split; [exact E|]. split; [exact E1 | exact E7].
Defined.

(** C10.  [EvaluateDataSet] reads of its input vector only the progress
    variable, the enthalpy and, with three control variables, the mixture
    fraction: two calls on the same fluid and lookup group whose inputs
    agree on these entries, with output vectors of the same size, have the
    same outcome (values, flag and fluid), whatever the user scalars are.
    And [SetTDState_T] does not depend on its temperature argument. *)
Theorem C10_user_scalars_not_read :
  (forall (A : Type) (I : Su2Double A) (obj : CFluidFlamelet)
          (input1 input2 : list A) (lookup_type : FLAMELET_LOOKUP_OPS)
          (output_refs1 output_refs2 : list A),
      nth_error input1 I_PROGVAR = nth_error input2 I_PROGVAR ->
      nth_error input1 I_ENTH = nth_error input2 I_ENTH ->
      (include_mixture_fraction obj = true ->
       nth_error input1 I_MIXFRAC = nth_error input2 I_MIXFRAC) ->
      List.length output_refs1 = List.length output_refs2 ->
      EvaluateDataSet obj input1 lookup_type output_refs1
      = EvaluateDataSet obj input2 lookup_type output_refs2)
  /\
  (forall (A : Type) (I : Su2Double A) (UNIVERSAL_GAS_CONSTANT : A)
          (obj : CFluidFlamelet) (val_temperature1 val_temperature2 : A)
          (val_scalars : nat -> A),
      SetTDState_T UNIVERSAL_GAS_CONSTANT obj val_temperature1 val_scalars
      = SetTDState_T UNIVERSAL_GAS_CONSTANT obj val_temperature2 val_scalars).
Proof.
  split.
  - intros A I obj input1 input2 ty out1 out2 Hp He Hm Hl.
    unfold EvaluateDataSet, vec_get. rewrite Hp, He, Hl.
    destruct (include_mixture_fraction obj); [rewrite (Hm eq_refl)|]; reflexivity.
  - reflexivity.
Qed.

Lemma C10_user_scalars_not_read_witness :
  exists obj : CFluidFlamelet,
    FlameStub.ctor true = Done obj /\
    EvaluateDataSet obj [0.5; 0.5; 0.1]%float SOURCES (val_vars_Sources obj)
    = EvaluateDataSet obj [0.5; 0.5; 0.9]%float SOURCES (val_vars_Sources obj).
Proof.
  assert (E : exists o, FlameStub.ctor true = Done o)
    by (vm_compute; eexists; reflexivity).
  destruct E as [obj E]. exists obj. split; [exact E|].
  apply (proj1 C10_user_scalars_not_read float binary64 obj
           [0.5; 0.5; 0.1]%float [0.5; 0.5; 0.9]%float SOURCES
           (val_vars_Sources obj) (val_vars_Sources obj));
    [reflexivity | reflexivity | | reflexivity].
  intros Hinc. vm_compute in E. inversion E; subst obj. discriminate Hinc.
Defined.

End FlameletFacts.

(** * Further properties of the data-driven fluid *)

Module DataDrivenMore.

Import DataDriven DataDrivenFacts.

Section Generic.

Context {A : Type} `{Su2Double A}.
Variable CLookUp_ANN : string -> Manifold (A := A).
Variable CLookUpTable : string -> Manifold (A := A).
Local Open Scope su2_scope.

Local Abbreviation SetTDState_rhoe := (SetTDState_rhoe CLookUp_ANN CLookUpTable).
Local Abbreviation backend := (backend CLookUp_ANN CLookUpTable).
Local Abbreviation forward := (forward CLookUp_ANN CLookUpTable).
Local Abbreviation body := (body CLookUp_ANN CLookUpTable).
Local Abbreviation loop := (loop CLookUp_ANN CLookUpTable).
Local Abbreviation solve := (solve CLookUp_ANN CLookUpTable).
Local Abbreviation run_body := (run_body CLookUp_ANN CLookUpTable).
Local Abbreviation never_within := (never_within CLookUp_ANN CLookUpTable).

Lemma same_configuration_refl (f : CDataDrivenFluid (A := A)) :
  same_configuration f f.
Proof. repeat split. Qed.

Lemma same_configuration_trans (f g h : CDataDrivenFluid (A := A)) :
  same_configuration f g -> same_configuration g h -> same_configuration f h.
Proof.
  intros (E1 & E2 & E3 & E4 & E5) (F1 & F2 & F3 & F4 & F5).
  repeat split; etransitivity; eassumption.
Qed.

Lemma SetTDState_rhoe_configuration (f : CDataDrivenFluid) (rho e : A) :
  same_configuration f (SetTDState_rhoe f rho e).
Proof. repeat split. Qed.

(** An evaluation holds the point it was made at. *)
Lemma SetTDState_rhoe_point (f : CDataDrivenFluid) (rho e : A) :
  Density (SetTDState_rhoe f rho e) = rho.
Proof. reflexivity. Qed.

Lemma SetTDState_rhoe_energy (f : CDataDrivenFluid) (rho e : A) :
  StaticEnergy (SetTDState_rhoe f rho e) = e.
Proof. reflexivity. Qed.

(** With a backend, an evaluation reads nothing but the configuration. *)
Lemma SetTDState_rhoe_history (f g : CDataDrivenFluid) (rho e : A) :
  same_configuration f g ->
  backend f <> None ->
  SetTDState_rhoe f rho e = SetTDState_rhoe g rho e.
Proof.
  destruct f, g. unfold same_configuration, DataDriven.backend; simpl.
  intros (-> & -> & -> & -> & ->) Hb.
  unfold DataDriven.SetTDState_rhoe, evaluate_manifold; simpl.
  destruct Kind_DataDriven_Method1; [reflexivity | reflexivity | now destruct Hb].
Qed.

Lemma body_history (sv : Solver) (a b : A) (s t : Newton) :
  same_locals s t ->
  backend (fluid s) <> None ->
  body sv a b s = body sv a b t.
Proof.
  intros (Hc & Hr & He & Hv & Hi) Hb.
  rewrite !body_spec. cbv zeta.
  assert (Ef : forward s = forward t).
  { unfold DataDriven.forward. rewrite <- Hr, <- He.
    apply SetTDState_rhoe_history; assumption. }
  rewrite <- Ef, <- Hr, <- He, <- Hv, <- Hi. reflexivity.
Qed.

Lemma init_same_locals (sv : Solver) (f g : CDataDrivenFluid) (a b : A) :
  same_configuration f g -> same_locals (init sv f a b) (init sv g a b).
Proof.
  intros Hc. pose proof Hc as (_ & _ & _ & Hr & He).
  destruct sv; unfold same_locals, init; cbn [fluid rho e converged Iter];
    (split; [exact Hc|]); rewrite ?Hr, ?He; repeat split.
Qed.

Lemma loop_history (sv : Solver) (f g : CDataDrivenFluid) (a b : A) :
  same_configuration f g ->
  backend f <> None ->
  loop sv f a b = loop sv g a b.
Proof.
  intros Hc Hb. rewrite !loop_unfold.
  assert (Hl : forall h, loop_cond (init sv h a b) = true)
    by (intros h; destruct sv; reflexivity).
  change iter_max with (S 999).
  rewrite !(while_step _ _ _ (Hl _)).
  rewrite (body_history sv a b (init_same_locals sv a b Hc)).
  - reflexivity.
  - destruct sv; exact Hb.
Qed.

(** The fluid at the end of a loop is configured as at its start. *)
Lemma while_configuration (sv : Solver) (a b : A) (fuel : nat) :
  forall s : Newton,
    same_configuration (fluid s) (fluid (while fuel loop_cond (body sv a b) s)).
Proof.
  induction fuel as [|fuel IH]; intros s; simpl.
  - apply same_configuration_refl.
  - destruct (loop_cond s); [|apply same_configuration_refl].
    eapply same_configuration_trans; [|apply IH].
    rewrite body_fluid. apply SetTDState_rhoe_configuration.
Qed.

Lemma solve_configuration (sv : Solver) (f : CDataDrivenFluid) (a b : A) :
  same_configuration f (solve sv f a b).
Proof.
  rewrite solve_forward. unfold DataDriven.forward.
  eapply same_configuration_trans; [|apply SetTDState_rhoe_configuration].
  rewrite loop_unfold.
  eapply same_configuration_trans; [|apply while_configuration].
  destruct sv; apply same_configuration_refl.
Qed.

(** A loop that converges at once. *)
Lemma loop_at_once (sv : Solver) (f : CDataDrivenFluid) (a b : A) :
  within_tolerance sv a b (forward (init sv f a b)) = true ->
  loop sv f a b = body sv a b (init sv f a b).
Proof.
  intros Hw. rewrite loop_unfold.
  assert (Hl : loop_cond (init sv f a b) = true) by (destruct sv; reflexivity).
  change iter_max with (S 999). rewrite (while_step _ _ _ Hl).
  apply while_stop, loop_cond_converged. rewrite body_test, Hw. reflexivity.
Qed.


(** A solver whose first guess passes the test returns the forward state
    at that guess. *)
Lemma solve_at_once (sv : Solver) (f : CDataDrivenFluid) (a b : A) :
  within_tolerance sv a b (forward (init sv f a b)) = true ->
  let s := loop sv f a b in
  Iter s = 1%nat /\
  converged s = true /\
  rho s = rho (init sv f a b) /\
  e s = e (init sv f a b) /\
  solve sv f a b = forward (init sv f a b).
Proof.
  intros Hw s. subst s.
  rewrite solve_forward, (loop_at_once sv f a b Hw).
  destruct (body_keep CLookUp_ANN CLookUpTable sv a b _ Hw) as [Er Ee].
  rewrite body_Iter, body_test, Hw, Er, Ee.
  split; [destruct sv; reflexivity|]. split; [reflexivity|].
  split; [reflexivity|]. split; [reflexivity|].
  unfold DataDriven.forward at 1. rewrite body_fluid, Er, Ee.
  unfold DataDriven.forward. apply SetTDState_rhoe_idem.
Qed.

End Generic.

(** *** Evaluations and solvers keep no history *)

(** X1.  [SetTDState_rhoe] keeps no history: on a fluid with a backend it
    reads nothing but the configuration, so two fluids configured alike,
    whatever state they hold, are left in the same state by an evaluation
    at the same density and energy; and evaluating a second time at the
    same point changes nothing, with or without a backend. *)
Theorem X1_evaluation_keeps_no_history :
  forall (A : Type) (I : Su2Double A) (ann lut : string -> Manifold)
         (f g : CDataDrivenFluid) (rho e : A),
    same_configuration f g ->
    backend ann lut f <> None ->
    SetTDState_rhoe ann lut f rho e = SetTDState_rhoe ann lut g rho e /\
    SetTDState_rhoe ann lut (SetTDState_rhoe ann lut g rho e) rho e
    = SetTDState_rhoe ann lut g rho e.
Proof.
  intros A I ann lut f g rho e Hc Hb. split.
  - apply SetTDState_rhoe_history; assumption.
  - apply SetTDState_rhoe_idem.
Qed.

Lemma X1_evaluation_keeps_no_history_witness :
  let f := Stub.fluid 1 2.0e5 in
  let g := Stub.SetTDState_rhoe f 3 4 in
  same_configuration f g /\
  backend Stub.ANN Stub.ANN f <> None /\
  Stub.SetTDState_rhoe f 1.2 2.0e5 = Stub.SetTDState_rhoe g 1.2 2.0e5.
Proof.
  cbv zeta.
  assert (Hc : same_configuration (Stub.fluid 1 2.0e5)
                 (Stub.SetTDState_rhoe (Stub.fluid 1 2.0e5) 3 4))
    by (repeat split).
  assert (Hb : backend Stub.ANN Stub.ANN (Stub.fluid 1 2.0e5) <> None)
    by discriminate.
  split; [exact Hc|]. split; [exact Hb|].
  exact (proj1 (@X1_evaluation_keeps_no_history float binary64 Stub.ANN Stub.ANN
                  (Stub.fluid 1 2.0e5)
                  (Stub.SetTDState_rhoe (Stub.fluid 1 2.0e5) 3 4)
                  1.2%float 2.0e5%float Hc Hb)).
Defined.



(** X3.  The two density-fixed solvers return a state at exactly the
    density they were given, converged or not; [SetTDState_Prho] returns
    it at the energy [SetEnergy_Prho] stored. *)
Theorem X3_density_is_kept :
  forall (A : Type) (I : Su2Double A) (ann lut : string -> Manifold)
         (f : CDataDrivenFluid) (x rho0 : A),
    Density (SetTDState_Prho ann lut f x rho0) = rho0 /\
    StaticEnergy (SetTDState_Prho ann lut f x rho0)
    = StaticEnergy (SetEnergy_Prho ann lut f x rho0) /\
    Density (SetTDState_rhoT ann lut f rho0 x) = rho0.
Proof.
  intros A I ann lut f x rho0. unfold SetTDState_Prho; cbv zeta.
  rewrite SetTDState_rhoe_point, SetTDState_rhoe_energy.
  split; [reflexivity|]. split; [reflexivity|].
  unfold SetTDState_rhoT; cbv zeta. rewrite SetTDState_rhoe_point.
  unfold rhoT_loop.
  exact (while_rho_fixed ann lut Solve_rhoT rho0 x iter_max eq_refl
           (mkNewton f rho0 (e_start f) false 0)).
Qed.

(** X4.  The solvers keep no history either: they start from the
    configured guess, never from the state the fluid holds, and write no
    member of the configuration.  So two fluids configured alike are left
    in the same state by the same call, and a second call with the same
    targets returns the state of the first. *)
Theorem X4_solvers_keep_no_history :
  forall (A : Type) (I : Su2Double A) (ann lut : string -> Manifold)
         (sv : Solver) (f g : CDataDrivenFluid) (a b : A),
    same_configuration f g ->
    backend ann lut f <> None ->
    solve ann lut sv f a b = solve ann lut sv g a b /\
    same_configuration f (solve ann lut sv f a b) /\
    solve ann lut sv (solve ann lut sv f a b) a b = solve ann lut sv f a b.
Proof.
  intros A I ann lut sv f g a b Hc Hb.
  assert (E : forall h, same_configuration f h ->
                        solve ann lut sv f a b = solve ann lut sv h a b).
  { intros h Hh. rewrite !solve_forward, (loop_history ann lut sv a b Hh Hb).
    reflexivity. }
  split; [apply E, Hc|]. split; [apply solve_configuration|].
  symmetry. apply E, solve_configuration.
Qed.

Lemma X4_solvers_keep_no_history_witness :
  let f := Stub.fluid 1.2 2.0e5 in
  let g := Stub.SetTDState_rhoe f 7 8 in
  same_configuration f g /\
  backend Stub.ANN Stub.ANN f <> None /\
  solve Stub.ANN Stub.ANN Solve_hs f 200300%float 1000%float
  = solve Stub.ANN Stub.ANN Solve_hs g 200300%float 1000%float.
Proof.
  cbv zeta.
  assert (Hc : same_configuration (Stub.fluid 1.2 2.0e5)
                 (Stub.SetTDState_rhoe (Stub.fluid 1.2 2.0e5) 7 8))
    by (repeat split).
  assert (Hb : backend Stub.ANN Stub.ANN (Stub.fluid 1.2 2.0e5) <> None)
    by discriminate.
  split; [exact Hc|]. split; [exact Hb|].
  exact (proj1 (@X4_solvers_keep_no_history float binary64 Stub.ANN Stub.ANN
                  Solve_hs (Stub.fluid 1.2 2.0e5)
                  (Stub.SetTDState_rhoe (Stub.fluid 1.2 2.0e5) 7 8)
                  200300%float 1000%float Hc Hb)).
Defined.

(** X5.  The state a solver returns, converged or not, is a forward
    state: evaluating it again at the density and energy it holds returns
    it unchanged. *)
Theorem X5_solvers_return_forward_states :
  forall (A : Type) (I : Su2Double A) (ann lut : string -> Manifold)
         (sv : Solver) (f : CDataDrivenFluid) (a b : A),
    let g := solve ann lut sv f a b in
    SetTDState_rhoe ann lut g (Density g) (StaticEnergy g) = g.
Proof.
  intros A I ann lut sv f a b g. subst g. rewrite solve_forward.
  unfold forward. apply SetTDState_rhoe_idem.
Qed.

(** *** Starting from a solution *)

(** X6.  When the forward state at the configured initial guess already
    has its residuals within the tolerances, a solver takes exactly one
    turn, no Newton step, and returns the forward state at the initial
    guess itself. *)
Theorem X6_converged_at_the_first_guess :
  forall (A : Type) (I : Su2Double A) (ann lut : string -> Manifold)
         (sv : Solver) (f : CDataDrivenFluid) (a b : A),
    within_tolerance sv a b (forward ann lut (init sv f a b)) = true ->
    let s := loop ann lut sv f a b in
    Iter s = 1%nat /\
    converged s = true /\
    rho s = rho (init sv f a b) /\
    e s = e (init sv f a b) /\
    solve ann lut sv f a b = forward ann lut (init sv f a b).
Proof.
  intros A I ann lut sv f a b Hw. exact (solve_at_once ann lut sv f a b Hw).
Qed.

Lemma X6_converged_at_the_first_guess_witness :
  let f := Stub.fluid 1.2 2.0e5 in
  within_tolerance Solve_Ps 355%float 1000.5%float
    (forward Stub.ANN Stub.ANN (init Solve_Ps f 355%float 1000.5%float)) = true /\
  Iter (loop Stub.ANN Stub.ANN Solve_Ps f 355%float 1000.5%float) = 1%nat /\
  solve Stub.ANN Stub.ANN Solve_Ps f 355%float 1000.5%float
  = Stub.SetTDState_rhoe f 1.2 2.0e5.
Proof.
  cbv zeta.
  match goal with
  | |- ?G /\ _ => assert (Hw : G) by (vm_compute; reflexivity)
  end.
  split; [exact Hw|].
  pose proof (@X6_converged_at_the_first_guess float binary64 Stub.ANN Stub.ANN
                Solve_Ps (Stub.fluid 1.2 2.0e5) 355%float 1000.5%float Hw)
    as (E1 & _ & _ & _ & E5).
  split; [exact E1 | exact E5].
Defined.

(** *** A density that is not a number, on binary64 *)

Section Binary64.

Variable CLookUp_ANN : string -> Manifold (A := float).
Variable CLookUpTable : string -> Manifold (A := float).
Local Open Scope float_scope.

Local Abbreviation forward := (forward CLookUp_ANN CLookUpTable).
Local Abbreviation body := (body CLookUp_ANN CLookUpTable).
Local Abbreviation loop := (loop CLookUp_ANN CLookUpTable).
Local Abbreviation solve := (solve CLookUp_ANN CLookUpTable).
Local Abbreviation run_body := (run_body CLookUp_ANN CLookUpTable).
Local Abbreviation never_within := (never_within CLookUp_ANN CLookUpTable).














(** A finite number is a zero or has a mantissa and an exponent. *)
Lemma finite_cases (x : float) :
  PrimFloat.is_finite x = true ->
  (exists s, Prim2SF x = S754_zero s)
  \/ (exists s m e, Prim2SF x = S754_finite s m e).
Proof.
  unfold is_finite, is_nan, is_infinity.
  rewrite !FloatAxioms.eqb_spec, abs_spec.
  destruct (Prim2SF x) as [s|s| |s m e]; intros E.
  - left. now exists s.
  - exfalso. destruct s; vm_compute in E; discriminate E.
  - exfalso. vm_compute in E. discriminate E.
  - right. now exists s, m, e.
Qed.

(** A finite number is within any positive tolerance of itself. *)
Lemma within_of_itself (x tol : float) :
  PrimFloat.is_finite x = true -> (0 <? tol) = true ->
  (PrimFloat.abs (x - x) <? tol) = true.
Proof.
  intros Hx Ht. rewrite ltb_spec in Ht |- *. rewrite abs_spec, sub_spec.
  assert (E : SFabs (SF64sub (Prim2SF x) (Prim2SF x)) = S754_zero false).
  { destruct (finite_cases x Hx) as [[s E]|(s & m & e & E)]; rewrite E.
    - destruct s; reflexivity.
    - unfold SF64sub, SFsub. cbv zeta. rewrite Z.sub_diag. reflexivity. }
  rewrite E. unfold SFltb in *.
  change (Prim2SF 0) with (S754_zero false) in Ht. exact Ht.
Qed.

(** A forward state whose measured quantities are finite passes the test
    against its own targets. *)
Lemma targets_within (sv : Solver) (F : CDataDrivenFluid (A := float)) :
  forallb PrimFloat.is_finite (measured sv F) = true ->
  within_tolerance sv (fst (targets sv F)) (snd (targets sv F)) F = true.
Proof.
  destruct sv; unfold within_tolerance, residuals, targets, measured;
    cbn [fst snd forallb]; cbn [ltb abs sub add div lit binary64];
    rewrite ?andb_true_r; intros Hf;
    repeat match type of Hf with
           | _ && _ = true => apply andb_true_iff in Hf as [? Hf]
           end;
    rewrite !within_of_itself by (assumption || reflexivity);
    reflexivity.
Qed.

End Binary64.

(** X7.  The round trip on binary64: when the configured initial guess
    is (rho0, e0) itself (for the density-fixed solvers, when the initial
    energy is e0) and the quantities the solver measures are finite at
    the forward state at (rho0, e0), every solver given the targets of
    that forward state converges at its first turn and returns exactly
    that forward state. *)
Theorem X7_round_trip_from_the_solution :
  forall (ann lut : string -> Manifold) (sv : Solver)
         (f : CDataDrivenFluid) (rho0 e0 : float),
    (updates_density sv = true -> rho_start f = rho0) ->
    e_start f = e0 ->
    let F := SetTDState_rhoe ann lut f rho0 e0 in
    let t := targets sv F in
    forallb PrimFloat.is_finite (measured sv F) = true ->
    Iter (loop ann lut sv f (fst t) (snd t)) = 1%nat /\
    converged (loop ann lut sv f (fst t) (snd t)) = true /\
    solve ann lut sv f (fst t) (snd t) = F.
Proof.
  intros ann lut sv f rho0 e0 Hr He F t Hf.
  assert (Ef : forward ann lut (init sv f (fst t) (snd t)) = F).
  { subst t F. unfold forward.
    destruct sv; cbn [init fluid rho e targets fst snd];
      rewrite ?He, ?(Hr eq_refl), ?SetTDState_rhoe_point; reflexivity. }
  assert (Hw : within_tolerance sv (fst t) (snd t)
                 (forward ann lut (init sv f (fst t) (snd t))) = true).
  { rewrite Ef. subst t. apply targets_within. exact Hf. }
  destruct (solve_at_once ann lut sv f (fst t) (snd t) Hw)
    as (E1 & E2 & _ & _ & E5).
  split; [exact E1|]. split; [exact E2|]. rewrite E5. exact Ef.
Qed.

Lemma X7_round_trip_from_the_solution_witness :
  let f := Stub.fluid 1 2.0e5 in
  let F := Stub.SetTDState_rhoe f 1 2.0e5 in
  let t := targets Solve_hs F in
  (updates_density Solve_hs = true -> rho_start f = 1%float) /\
  e_start f = 2.0e5%float /\
  forallb PrimFloat.is_finite (measured Solve_hs F) = true /\
  solve Stub.ANN Stub.ANN Solve_hs f (fst t) (snd t) = F.
Proof.
  cbv zeta. split; [reflexivity|]. split; [reflexivity|].
  assert (Hf : forallb PrimFloat.is_finite
                 (measured Solve_hs (Stub.SetTDState_rhoe (Stub.fluid 1 2.0e5) 1 2.0e5))
               = true)
    by (vm_compute; reflexivity).
  split; [exact Hf|].
  exact (proj2 (proj2
           (@X7_round_trip_from_the_solution Stub.ANN Stub.ANN Solve_hs
              (Stub.fluid 1 2.0e5) 1%float 2.0e5%float (fun _ => eq_refl) eq_refl Hf))).
Defined.



End DataDrivenMore.

(** * Further properties of the flamelet fluid *)

Module FlameletMore.

Import Flamelet FlameletFacts.
Local Open Scope string_scope.
Local Open Scope list_scope.

(** *** Vectors and loops over them *)

Lemma resize_nil {T} (n : nat) (d : T) : resize n d [] = repeat d n.
Proof. unfold resize. now rewrite firstn_nil, Nat.sub_0_r. Qed.

Lemma vec_set_outside {T} (v : list T) (i : nat) (x : T) :
  (List.length v <= i)%nat -> vec_set v i x = Undefined.
Proof.
  revert i. induction v as [|y v IH]; intros i Hi; [reflexivity|].
  destruct i as [|i]; simpl in Hi; [lia|].
  simpl. rewrite IH by lia. reflexivity.
Qed.

Lemma vec_set_inside {T} (v : list T) (i : nat) (x : T) :
  (i < List.length v)%nat ->
  exists v', vec_set v i x = Done v' /\ List.length v' = List.length v.
Proof.
  revert i. induction v as [|y v IH]; intros i Hi; simpl in Hi; [lia|].
  destruct i as [|i]; simpl.
  - eexists. split; reflexivity.
  - destruct (IH i) as (v' & E & El); [lia|].
    rewrite E. simpl. eexists. split; [reflexivity|]. simpl. now rewrite El.
Qed.

(** Writing [count] entries after the first [c + start]. *)
Lemma for_range_fill {T} (g : nat -> T) (c count : nat) :
  forall (start : nat) (pre post : list T),
    List.length pre = (c + start)%nat ->
    List.length post = count ->
    for_range count start (fun i v => vec_set v (c + i)%nat (g i)) (pre ++ post)
    = Done (pre ++ map g (seq start count)).
Proof.
  induction count as [|count IH]; intros start pre post Hp Hl.
  - destruct post; [|discriminate]. reflexivity.
  - destruct post as [|y post]; [discriminate|]. simpl for_range.
    rewrite <- Hp, vec_set_app. simpl bind.
    replace (pre ++ g start :: post) with ((pre ++ [g start]) ++ post)
      by (now rewrite <- app_assoc).
    rewrite IH.
    + rewrite <- app_assoc. reflexivity.
    + rewrite length_app. simpl. lia.
    + simpl in Hl. lia.
Qed.

(** The same loop on a vector with room for every write, or without. *)
Lemma for_range_room {T} (g : nat -> T) (c count : nat) :
  forall (start : nat) (v : list T),
    (c + start + count <= List.length v)%nat ->
    exists v',
      for_range count start (fun i w => vec_set w (c + i)%nat (g i)) v = Done v'
      /\ List.length v' = List.length v
      /\ forall j, (j < c + start)%nat -> nth_error v' j = nth_error v j.
Proof.
  induction count as [|count IH]; intros start v Hv.
  - exists v. repeat split.
  - simpl for_range.
    destruct (@vec_set_inside _ v (c + start) (g start)) as (v1 & E1 & El1); [lia|].
    rewrite E1. simpl bind.
    destruct (IH (S start) v1) as (v' & E & El & Hn); [lia|].
    exists v'. split; [exact E|]. split; [congruence|].
    intros j Hj. rewrite Hn by lia.
    clear - E1 Hj. revert v v1 j E1 Hj. generalize (c + start)%nat as i.
    induction i as [|i IHi]; intros v v1 j E1 Hj; [lia|].
    destruct v as [|y v]; simpl in E1; [discriminate|].
    destruct (vec_set v i (g start)) eqn:Ev; simpl in E1; try discriminate.
    inversion E1; subst v1. destruct j as [|j]; [reflexivity|]. simpl.
    destruct i as [|i'].
    + lia.
    + apply (IHi v v0 j Ev). lia.
Qed.

Lemma for_range_no_room {T} (g : nat -> T) (c count : nat) :
  forall (start : nat) (v : list T),
    (0 < count)%nat ->
    (List.length v < c + start + count)%nat ->
    for_range count start (fun i w => vec_set w (c + i)%nat (g i)) v = Undefined.
Proof.
  induction count as [|count IH]; intros start v Hc Hv; [lia|].
  simpl for_range.
  destruct (Nat.lt_ge_cases (c + start) (List.length v)) as [Hin|Hout].
  - destruct (@vec_set_inside _ v (c + start) (g start) Hin) as (v1 & E1 & El1).
    rewrite E1. simpl bind. apply IH; lia.
  - rewrite vec_set_outside by assumption. reflexivity.
Qed.

(** The loop of [PreprocessLookUp] over the source terms: two names a
    turn, after the first. *)
Lemma for_range_pairs (g : nat -> string) (count : nat) :
  forall (start : nat) (pre post : list string),
    List.length pre = (1 + 2 * start)%nat ->
    List.length post = (2 * count)%nat ->
    for_range count start
      (fun i_aux names =>
         names <- vec_set names (1 + 2 * i_aux)%nat (g (2 * i_aux)%nat) ;;
         vec_set names (1 + 2 * i_aux + 1)%nat (g (2 * i_aux + 1)%nat))
      (pre ++ post)
    = Done (pre ++ map g (seq (2 * start) (2 * count))).
Proof.
  induction count as [|count IH]; intros start pre post Hp Hl.
  - destruct post; [|discriminate]. simpl. reflexivity.
  - destruct post as [|y1 [|y2 post]]; try (simpl in Hl; lia).
    cbn [for_range]. rewrite <- Hp, vec_set_app. cbn [bind].
    replace (pre ++ g (2 * start)%nat :: y2 :: post)
      with ((pre ++ [g (2 * start)%nat]) ++ y2 :: post)
      by (now rewrite <- app_assoc).
    replace (List.length pre + 1)%nat
      with (List.length (pre ++ [g (2 * start)%nat]))
      by (rewrite length_app; reflexivity).
    rewrite vec_set_app. cbn [bind].
    replace ((pre ++ [g (2 * start)%nat]) ++ g (2 * start + 1)%nat :: post)
      with ((pre ++ [g (2 * start)%nat; g (2 * start + 1)%nat]) ++ post)
      by (now rewrite <- !app_assoc).
    rewrite IH.
    + rewrite <- app_assoc.
      replace (2 * S count)%nat with (S (S (2 * count))) by lia.
      replace (2 * S start)%nat with (S (S (2 * start))) by lia.
      cbn [seq map app].
      replace (2 * start + 1)%nat with (S (2 * start)) by lia. reflexivity.
    + rewrite length_app. cbn [List.length]. lia.
    + simpl in Hl. lia.
Qed.

(** *** What the constructor builds *)

Section Generic.

Context {A : Type} `{Su2Double A}.
Variable CLookUpTable_ctor : string -> string -> string -> CLookUpTable (A := A).
Variable UNIVERSAL_GAS_CONSTANT : A.
Variable indeterminate : A.
Variable indeterminate_flag : nat.
Local Open Scope string_scope.

Local Abbreviation CFluidFlamelet_ctor :=
  (CFluidFlamelet_ctor CLookUpTable_ctor indeterminate indeterminate_flag).
Local Abbreviation SetTDState_T := (SetTDState_T UNIVERSAL_GAS_CONSTANT).

(** [PreprocessLookUp] never leaves its vectors, and lays the names out
    in the order of its loops. *)
Lemma PreprocessLookUp_result (n : nat) (config : CConfig) :
  PreprocessLookUp (A := A) n config
  = Done (mkLookUpTables
            ["Temperature"; "Cp"; "ViscosityDyn"; "Conductivity";
             "DiffusionCoefficient"; "MolarWeightMix"]
            (repeat (lit 0) LOOKUP_TD.SIZE)
            ("ProdRateTot_PV" :: map (GetUserSourceName config) (seq 0 (2 * n)))
            (repeat (lit 0) (1 + 2 * n))
            (map (GetLUTLookupName config) (seq 0 (GetNLookups config)))
            (repeat (lit 0) (GetNLookups config))).
Proof.
  unfold PreprocessLookUp. rewrite !resize_nil.
  cbn [LOOKUP_TD.SIZE repeat vec_set bind LOOKUP_TD.TEMPERATURE
       LOOKUP_TD.HEATCAPACITY LOOKUP_TD.VISCOSITY LOOKUP_TD.CONDUCTIVITY
       LOOKUP_TD.DIFFUSIONCOEFFICIENT LOOKUP_TD.MOLARWEIGHT].
  change (repeat EmptyString (1 + 2 * n)) with (EmptyString :: repeat EmptyString (2 * n)).
  cbn [I_SRC_TOT_PROGVAR vec_set bind].
  pose proof (for_range_pairs (GetUserSourceName config) n 0
                ["ProdRateTot_PV"] (repeat EmptyString (2 * n)) eq_refl
                (repeat_length _ _)) as Es.
  cbn [app] in Es. change (2 * 0)%nat with 0%nat in Es. rewrite Es.
  cbn [bind].
  pose proof (@for_range_fill _ (GetLUTLookupName config) 0 (GetNLookups config) 0
                [] (repeat EmptyString (GetNLookups config)) eq_refl
                (repeat_length _ _)) as E.
  cbn [app Nat.add] in E. rewrite E. reflexivity.
Qed.

Lemma admits_true_iff (config : CConfig) :
  admits config = true <->
  (2 <= GetNScalars config)%nat
  /\ (GetNControlVars config = 3%nat -> 3 <= GetNScalars config)%nat
  /\ (GetNUserScalars config = 0%nat
      \/ GetNControlVars config + GetNUserScalars config <= GetNScalars config)%nat.
Proof.
  unfold admits. rewrite !andb_true_iff, orb_true_iff, !Nat.leb_le, Nat.eqb_eq.
  destruct (Nat.eqb_spec (GetNControlVars config) 3) as [E|E];
    rewrite ?Nat.leb_le; intuition congruence.
Qed.

(** The constructor returns exactly on the configurations [admits]
    accepts; on the others a write falls outside the name table. *)
Lemma ctor_cases (config : CConfig) (P : A) (load_manifold : bool) :
  if admits config
  then exists obj : CFluidFlamelet,
         CFluidFlamelet_ctor config P load_manifold = Done obj
         /\ built config P load_manifold obj
  else CFluidFlamelet_ctor config P load_manifold = Undefined.
Proof.
  pose proof (admits_true_iff config) as Ha.
  unfold Flamelet.CFluidFlamelet_ctor. rewrite !resize_nil.
  rewrite PreprocessLookUp_result. unfold built.
  set (n := GetNScalars config) in *. set (nc := GetNControlVars config) in *.
  set (nu := GetNUserScalars config) in *.
  assert (Hno : ~ ((2 <= n)%nat /\ (nc = 3%nat -> (3 <= n)%nat)
                   /\ (nu = 0%nat \/ (nc + nu <= n)%nat)) ->
                admits config = false).
  { intros Hn. destruct (admits config); [|reflexivity].
    destruct Hn. now apply Ha. }
  destruct (Nat.lt_ge_cases I_ENTH n) as [H1|H1]; unfold I_ENTH in H1.
  2:{ rewrite Hno by lia.
      rewrite vec_set_outside by (rewrite repeat_length; exact H1). reflexivity. }
  destruct (@vec_set_inside _ (repeat EmptyString n) I_ENTH "EnthalpyTot")
    as (names1 & E1 & L1); [rewrite repeat_length; exact H1|].
  rewrite repeat_length in L1. rewrite E1. cbn [bind].
  destruct (@vec_set_inside _ names1 I_PROGVAR "ProgressVariable")
    as (names2 & E2 & L2); [unfold I_PROGVAR; lia|].
  rewrite E2. cbn [bind].
  assert (Hmix : (exists names3,
                     List.length names3 = n /\
                     ((nc =? 3)%nat = false \/ (3 <= n)%nat) /\
                     (if (nc =? 3)%nat
                      then vec_set names2 I_MIXFRAC "MixtureFraction"
                      else Done names2) = Done names3)
                 \/ ((nc =? 3)%nat = true /\ (n < 3)%nat)).
  { destruct (nc =? 3)%nat eqn:Enc.
    - destruct (Nat.lt_ge_cases I_MIXFRAC n) as [H2|H2]; unfold I_MIXFRAC in H2.
      + destruct (@vec_set_inside _ names2 I_MIXFRAC "MixtureFraction")
          as (names3 & E3 & L3); [unfold I_MIXFRAC; lia|].
        left. exists names3. repeat split; [lia | right; lia | exact E3].
      + right. split; [reflexivity | lia].
    - left. exists names2. repeat split; [lia | now left]. }
  destruct Hmix as [(names3 & L3 & H3 & E3) | [Enc H2]].
  2:{ rewrite Hno by (apply Nat.eqb_eq in Enc; lia).
      rewrite Enc, vec_set_outside by (unfold I_MIXFRAC; lia). reflexivity. }
  rewrite E3. cbn [bind].
  assert (H3' : nc = 3%nat -> (3 <= n)%nat).
  { intros E. destruct H3 as [H3|H3]; [|exact H3].
    apply Nat.eqb_neq in H3. now destruct H3. }
  clear E1 E2 E3 names1 names2 L1 L2 H3.
  destruct (Nat.eq_dec nu 0) as [Hu|Hu];
    [|destruct (Nat.le_gt_cases (nc + nu) n) as [Hroom|Hroom]].
  3:{ rewrite Hno by lia. rewrite for_range_no_room by lia. reflexivity. }
  all: replace (admits config) with true by (symmetry; apply Ha; lia).
  all: assert (Hnames : exists names4,
                 for_range nu 0
                   (fun i_aux names =>
                      vec_set names (nc + i_aux)%nat (GetUserScalarName config i_aux))
                   names3 = Done names4
                 /\ List.length names4 = n);
    [ first [ rewrite Hu; exists names3; split; [reflexivity | exact L3]
            | destruct (@for_range_room _ (GetUserScalarName config) nc nu 0 names3)
                as (names4 & E4 & L4 & _);
              [lia | exists names4; split; [exact E4 | lia]] ]
    | destruct Hnames as (names4 & E4 & L4); rewrite E4; cbn [bind] ].
  all: assert (Eg : forall i, (i < n)%nat -> exists x, vec_get names4 i = Done x)
    by (intros i Hi; unfold vec_get; destruct (nth_error names4 i) eqn:En;
        [eauto | apply nth_error_None in En; lia]).
  all: destruct (Eg I_PROGVAR) as (np & Enp); [unfold I_PROGVAR; lia|].
  all: destruct (Eg I_ENTH) as (ne & Ene); [unfold I_ENTH; lia|].
  all: destruct load_manifold; rewrite ?Enp, ?Ene; cbn [bind];
    (eexists; split; [reflexivity|]); cbn;
    repeat split;
    first [ reflexivity | assumption | discriminate
          | intros; reflexivity | intros; discriminate ].
Qed.

(** *** The thermodynamic lookup, member by member *)

(** The fluid [SetTDState_T] leaves, for a ready fluid and its table. *)
Lemma SetTDState_T_result (P : A) (obj : CFluidFlamelet) (table : CLookUpTable)
  (T : A) (sc : nat -> A) :
  ready P obj ->
  look_up_table obj = Some table ->
  let point :=
    if include_mixture_fraction obj
    then [sc I_PROGVAR; sc I_ENTH; sc I_MIXFRAC]
    else [sc I_PROGVAR; sc I_ENTH] in
  let value := fun name => tab_value table name point in
  SetTDState_T obj T sc
  = Done {| generate_manifold := generate_manifold obj;
            n_user_scalars := n_user_scalars obj;
            n_control_vars := n_control_vars obj;
            include_mixture_fraction := include_mixture_fraction obj;
            n_scalars := n_scalars obj;
            scalars_vector := map sc (seq 0 (n_scalars obj));
            table_scalar_names := table_scalar_names obj;
            look_up_table := look_up_table obj;
            varnames_TD := varnames_TD obj;
            val_vars_TD := map value (varnames_TD obj);
            varnames_Sources := varnames_Sources obj;
            val_vars_Sources := val_vars_Sources obj;
            varnames_LookUp := varnames_LookUp obj;
            val_vars_LookUp := val_vars_LookUp obj;
            extrapolation := (if tab_inside table point then 0 else 1)%nat;
            Pressure := Pressure obj;
            Temperature := value "Temperature";
            Cp := value "Cp";
            Mu := value "ViscosityDyn";
            Kt := value "Conductivity";
            mass_diffusivity := value "DiffusionCoefficient";
            molar_weight := value "MolarWeightMix";
            Density :=
              div (Pressure obj)
                  (mul (mul (value "MolarWeightMix") UNIVERSAL_GAS_CONSTANT)
                       (value "Temperature"));
            Cv := sub (value "Cp") (div UNIVERSAL_GAS_CONSTANT (value "MolarWeightMix")) |}.
Proof.
  intros (_ & HP & Hl & He & Hp & Hm & Hn & Hv) Etab. cbv zeta.
  pose proof (for_range_copy sc [] (scalars_vector obj) Hl) as Ecopy.
  cbn [List.length app] in Ecopy.
  unfold Flamelet.SetTDState_T. rewrite Ecopy. cbn [bind].
  unfold EvaluateDataSet.
  rewrite !vec_get_map_seq by assumption. cbn [bind].
  rewrite Hn, Hv, Etab.
  destruct (include_mixture_fraction obj) eqn:Einc.
  - rewrite vec_get_map_seq by (now apply Hm). cbn. rewrite ?Etab, ?Einc, ?Hn. reflexivity.
  - cbn. rewrite ?Etab, ?Einc, ?Hn. reflexivity.
Qed.

Lemma built_ready (config : CConfig) (P : A) (obj : CFluidFlamelet) :
  admits config = true -> built config P true obj -> ready P obj /\ sized obj.
Proof.
  intros Ha (Hg & Hu & Hc & Hi & Hn & Hs & Ht & Hl & HP & HnT & HvT & HnS & HvS & HnL & HvL).
  apply admits_true_iff in Ha as (H2 & H3 & _).
  split.
  - unfold ready. rewrite Hs, Hn, repeat_length, HvT, repeat_length, Hi.
    repeat split; try assumption; unfold I_ENTH, I_PROGVAR, I_MIXFRAC; try lia.
    + intros E. apply Hl in E. discriminate.
    + intros E. apply Nat.eqb_eq in E. specialize (H3 E). lia.
  - unfold sized. rewrite HvT, HnT, HvS, HnS, HvL, HnL.
    rewrite !repeat_length. cbn [List.length].
    rewrite !length_map, !length_seq. repeat split.
Qed.

(** A call keeps the fluid ready and sized, and leaves its table, its
    names and its other value vectors as they were. *)
Lemma SetTDState_T_keeps (P : A) (obj obj' : CFluidFlamelet) (T : A) (sc : nat -> A) :
  ready P obj -> sized obj ->
  SetTDState_T obj T sc = Done obj' ->
  ready P obj' /\ sized obj' /\
  look_up_table obj' = look_up_table obj /\
  include_mixture_fraction obj' = include_mixture_fraction obj /\
  n_scalars obj' = n_scalars obj.
Proof.
  intros Hr (Hs1 & Hs2 & Hs3) E.
  pose proof Hr as (Ht & HP & Hl & He & Hp & Hm & Hn & Hv).
  destruct (look_up_table obj) as [table|] eqn:Etab; [|now destruct Ht].
  rewrite (SetTDState_T_result T sc Hr Etab) in E. inversion E; subst obj'; clear E.
  unfold ready, sized;
    cbn [look_up_table Pressure scalars_vector n_scalars include_mixture_fraction
         varnames_TD val_vars_TD varnames_Sources val_vars_Sources
         varnames_LookUp val_vars_LookUp].
  rewrite !length_map, length_seq, Hn.
  repeat split; try assumption; try discriminate.
  rewrite Etab. discriminate.
Qed.

Lemma run_calls_keeps (P : A) (calls : list (A * (nat -> A))) :
  forall obj : CFluidFlamelet,
    ready P obj -> sized obj ->
    exists obj' : CFluidFlamelet,
      run_calls UNIVERSAL_GAS_CONSTANT obj calls = Done obj' /\
      ready P obj' /\ sized obj' /\
      look_up_table obj' = look_up_table obj /\
      include_mixture_fraction obj' = include_mixture_fraction obj /\
      n_scalars obj' = n_scalars obj.
Proof.
  induction calls as [|c calls IH]; intros obj Hr Hs.
  - exists obj. split; [reflexivity|]. split; [exact Hr|]. split; [exact Hs|].
    repeat split.
  - destruct (SetTDState_T_ready UNIVERSAL_GAS_CONSTANT (fst c) (snd c) Hr)
      as (obj1 & _ & _ & E & _).
    destruct (@SetTDState_T_keeps P obj obj1 (fst c) (snd c) Hr Hs E)
      as (Hr1 & Hs1 & Et1 & Ei1 & En1).
    destruct (IH obj1 Hr1 Hs1) as (obj' & E' & Hr' & Hs' & Et' & Ei' & En').
    exists obj'. cbn [run_calls]. rewrite E. cbn [bind].
    split; [exact E'|]. split; [exact Hr'|]. split; [exact Hs'|].
    repeat split; congruence.
Qed.

End Generic.

(** *** Construction *)

(** X11.  [PreprocessLookUp] never writes outside its vectors, whatever
    the numbers of user scalars and of passive lookups.  It names the
    source terms "ProdRateTot_PV" followed by the user source names 0, 1,
    ..., 2n-1 in order, and the passive lookups by their configured names
    in order; each value vector is zero-filled with one slot per name. *)
Theorem X11_PreprocessLookUp_tables :
  forall (A : Type) (I : Su2Double A) (n_user_scalars : nat) (config : CConfig),
  exists pp : LookUpTables (A := A),
    PreprocessLookUp n_user_scalars config = Done pp /\
    pp_varnames_TD pp
    = ["Temperature"; "Cp"; "ViscosityDyn"; "Conductivity";
       "DiffusionCoefficient"; "MolarWeightMix"]%string /\
    pp_varnames_Sources pp
    = "ProdRateTot_PV"%string
      :: map (GetUserSourceName config) (seq 0 (2 * n_user_scalars)) /\
    pp_varnames_LookUp pp
    = map (GetLUTLookupName config) (seq 0 (GetNLookups config)) /\
    pp_val_vars_TD pp = repeat (lit 0) (List.length (pp_varnames_TD pp)) /\
    pp_val_vars_Sources pp = repeat (lit 0) (List.length (pp_varnames_Sources pp)) /\
    pp_val_vars_LookUp pp = repeat (lit 0) (List.length (pp_varnames_LookUp pp)).
Proof.
  intros A I n config. eexists. split; [apply PreprocessLookUp_result|].
  cbn [pp_varnames_TD pp_varnames_Sources pp_varnames_LookUp pp_val_vars_TD
       pp_val_vars_Sources pp_val_vars_LookUp List.length].
  rewrite !length_map, !length_seq. repeat split.
Qed.

(** X12.  The constructor returns exactly when the name table has room:
    at least two scalars, three when there are three control variables,
    and, when there are user scalars, at least as many scalars as control
    variables and user scalars together.  Then the fluid holds the
    operating pressure, zero-filled vectors of the configured sizes, and a
    table exactly when it was asked to load one.  Otherwise a name is
    written outside the table, which is undefined behaviour. *)
Theorem X12_constructor_cases :
  forall (A : Type) (I : Su2Double A)
         (CLookUpTable_ctor : string -> string -> string -> CLookUpTable)
         (indeterminate : A) (indeterminate_flag : nat)
         (config : CConfig) (P : A) (load_manifold : bool),
    if admits config
    then exists obj : CFluidFlamelet,
        CFluidFlamelet_ctor CLookUpTable_ctor indeterminate indeterminate_flag
          config P load_manifold = Done obj
        /\ built config P load_manifold obj
    else CFluidFlamelet_ctor CLookUpTable_ctor indeterminate indeterminate_flag
           config P load_manifold = Undefined.
Proof. intros. apply ctor_cases. Qed.

(** X13.  With two or three control variables and exactly as many scalars
    as control variables and user scalars, the constructor lays the name
    table out as "ProgressVariable", "EnthalpyTot", "MixtureFraction" when
    there are three control variables, then the user scalar names in
    order; a table that is loaded is read with the coordinates
    "ProgressVariable" and "EnthalpyTot". *)
Theorem X13_constructor_name_table :
  forall (A : Type) (I : Su2Double A)
         (CLookUpTable_ctor : string -> string -> string -> CLookUpTable)
         (indeterminate : A) (indeterminate_flag : nat)
         (config : CConfig) (P : A) (load_manifold : bool),
    GetNControlVars config = 2%nat \/ GetNControlVars config = 3%nat ->
    GetNScalars config = (GetNControlVars config + GetNUserScalars config)%nat ->
    exists obj : CFluidFlamelet,
      CFluidFlamelet_ctor CLookUpTable_ctor indeterminate indeterminate_flag
        config P load_manifold = Done obj /\
      table_scalar_names obj
      = ((if (GetNControlVars config =? 3)%nat
          then ["ProgressVariable"; "EnthalpyTot"; "MixtureFraction"]
          else ["ProgressVariable"; "EnthalpyTot"])
         ++ map (GetUserScalarName config) (seq 0 (GetNUserScalars config))) /\
      look_up_table obj
      = if load_manifold
        then Some (CLookUpTable_ctor (GetFileNameLUT config)
                     "ProgressVariable"%string "EnthalpyTot"%string)
        else None.
Proof.
  intros A I tctor ind indf config P load Hc Hn.
  unfold CFluidFlamelet_ctor. rewrite !resize_nil, PreprocessLookUp_result, Hn.
  destruct Hc as [Hc|Hc]; rewrite Hc.
  - change (repeat EmptyString (2 + GetNUserScalars config))
      with (EmptyString :: EmptyString :: repeat EmptyString (GetNUserScalars config)).
    cbn [vec_set bind I_ENTH I_PROGVAR Nat.eqb].
    pose proof (@for_range_fill _ (GetUserScalarName config) 2
                  (GetNUserScalars config) 0
                  ["ProgressVariable"; "EnthalpyTot"]%string
                  (repeat EmptyString (GetNUserScalars config)) eq_refl
                  (repeat_length _ _)) as E.
    cbn [app] in E. rewrite E. cbn [bind].
    destruct load; cbn; eexists; repeat split.
  - change (repeat EmptyString (3 + GetNUserScalars config))
      with (EmptyString :: EmptyString :: EmptyString
            :: repeat EmptyString (GetNUserScalars config)).
    cbn [vec_set bind I_ENTH I_PROGVAR I_MIXFRAC Nat.eqb].
    pose proof (@for_range_fill _ (GetUserScalarName config) 3
                  (GetNUserScalars config) 0
                  ["ProgressVariable"; "EnthalpyTot"; "MixtureFraction"]%string
                  (repeat EmptyString (GetNUserScalars config)) eq_refl
                  (repeat_length _ _)) as E.
    cbn [app] in E. rewrite E. cbn [bind].
    destruct load; cbn; eexists; repeat split.
Qed.

Lemma X13_constructor_name_table_witness :
  exists obj : CFluidFlamelet,
    FlameStub.ctor true = Done obj /\
    table_scalar_names obj = ["ProgressVariable"; "EnthalpyTot"; "Y_CO"]%string.
Proof.
  destruct (@X13_constructor_name_table float binary64 (fun _ _ _ => FlameStub.table)
              nan 0%nat FlameStub.config FlameStub.P_operating true
              (or_introl eq_refl) eq_refl) as (obj & E & En & _).
  exists obj. split; [exact E | exact En].
Defined.

(** *** Calls on a constructed fluid *)

Section Constructed.

Context {A : Type} `{Su2Double A}.
Variable CLookUpTable_ctor : string -> string -> string -> CLookUpTable (A := A).
Variable UNIVERSAL_GAS_CONSTANT : A.
Variable indeterminate : A.
Variable indeterminate_flag : nat.

Local Abbreviation CFluidFlamelet_ctor :=
  (CFluidFlamelet_ctor CLookUpTable_ctor indeterminate indeterminate_flag).
Local Abbreviation SetTDState_T := (SetTDState_T UNIVERSAL_GAS_CONSTANT).
Local Abbreviation run_calls := (run_calls UNIVERSAL_GAS_CONSTANT).

(** A constructor call that returned was admitted and built its fluid. *)
Lemma ctor_Done (config : CConfig) (P : A) (load_manifold : bool)
  (obj : CFluidFlamelet) :
  CFluidFlamelet_ctor config P load_manifold = Done obj ->
  admits config = true /\ built config P load_manifold obj.
Proof.
  intros E.
  pose proof (ctor_cases CLookUpTable_ctor indeterminate indeterminate_flag
                config P load_manifold) as Hc.
  destruct (admits config).
  - destruct Hc as (obj' & E' & Hb). rewrite E' in E. inversion E; subst obj'.
    split; [reflexivity | exact Hb].
  - rewrite Hc in E. discriminate.
Qed.

(** The state of a fluid constructed with its table, after any calls. *)
Lemma constructed_state (config : CConfig) (P : A) (obj0 : CFluidFlamelet)
  (calls : list (A * (nat -> A))) :
  CFluidFlamelet_ctor config P true = Done obj0 ->
  exists (obj : CFluidFlamelet) (table : CLookUpTable),
    run_calls obj0 calls = Done obj /\
    ready P obj /\ sized obj /\
    look_up_table obj = Some table /\
    include_mixture_fraction obj = (GetNControlVars config =? 3)%nat /\
    n_scalars obj = GetNScalars config.
Proof.
  intros E. destruct (ctor_Done _ _ _ E) as [Ha Hb].
  destruct (built_ready Ha Hb) as [Hr Hs].
  destruct (run_calls_keeps UNIVERSAL_GAS_CONSTANT calls Hr Hs)
    as (obj & Er & Hr' & Hs' & Et & Ei & En).
  destruct Hb as (_ & _ & _ & Hi & Hn & _).
  pose proof Hr' as (Ht & _).
  destruct (look_up_table obj) as [table|] eqn:Etab; [|now destruct Ht].
  exists obj, table. split; [exact Er|]. split; [exact Hr'|]. split; [exact Hs'|].
  repeat split; congruence.
Qed.

End Constructed.

(** X15.  A fluid constructed without its table answers nothing: every
    [SetTDState_T] on it dereferences the table that was never built, and
    no [EvaluateDataSet] on it returns. *)
Theorem X15_fluid_without_table :
  forall (A : Type) (I : Su2Double A)
         (CLookUpTable_ctor : string -> string -> string -> CLookUpTable)
         (UNIVERSAL_GAS_CONSTANT indeterminate : A) (indeterminate_flag : nat)
         (config : CConfig) (P : A) (obj : CFluidFlamelet),
    CFluidFlamelet_ctor CLookUpTable_ctor indeterminate indeterminate_flag
      config P false = Done obj ->
    (forall (val_temperature : A) (val_scalars : nat -> A),
        SetTDState_T UNIVERSAL_GAS_CONSTANT obj val_temperature val_scalars
        = Undefined) /\
    (forall (input : list A) (lookup_type : FLAMELET_LOOKUP_OPS)
            (output_refs : list A) r,
        EvaluateDataSet obj input lookup_type output_refs <> Done r).
Proof.
  intros A I tctor R ind indf config P obj E.
  destruct (@ctor_Done A I tctor ind indf config P false obj E) as [Ha Hb].
  pose proof Hb as (_ & _ & _ & Hi & Hn & Hs & _ & Hl & _ & HnT & HvT & _).
  assert (Et : look_up_table obj = None) by (now apply Hl).
  apply admits_true_iff in Ha as (H2 & H3 & _).
  split.
  - intros T sc. unfold SetTDState_T.
    assert (Hlen : List.length (scalars_vector obj) = n_scalars obj)
      by (now rewrite Hs, Hn, repeat_length).
    pose proof (for_range_copy sc [] (scalars_vector obj) Hlen) as Ecopy.
    cbn [List.length app] in Ecopy. rewrite Ecopy. cbn [bind].
    rewrite EvaluateDataSet_eq, control_point_copy.
    + cbn [bind group_names]. rewrite HnT, HvT, Et. reflexivity.
    + unfold I_ENTH. lia.
    + unfold I_PROGVAR. lia.
    + rewrite Hi. intros E3. apply Nat.eqb_eq in E3. unfold I_MIXFRAC.
      specialize (H3 E3). lia.
  - intros input ty out r. rewrite EvaluateDataSet_eq.
    destruct (control_point obj input); cbn [bind]; try discriminate.
    destruct (negb _); [discriminate|]. rewrite Et. discriminate.
Qed.

Lemma X15_fluid_without_table_witness :
  exists obj : CFluidFlamelet,
    FlameStub.ctor false = Done obj /\
    SetTDState_T FlameStub.R_universal obj 300%float
      (fun i => nth i FlameStub.scalars_inside 0%float) = Undefined.
Proof.
  assert (E : exists o, FlameStub.ctor false = Done o)
    by (vm_compute; eexists; reflexivity).
  destruct E as [obj E]. exists obj. split; [exact E|].
  exact (proj1 (@X15_fluid_without_table float binary64 (fun _ _ _ => FlameStub.table)
                  FlameStub.R_universal nan 0%nat FlameStub.config
                  FlameStub.P_operating obj E) 300%float
           (fun i => nth i FlameStub.scalars_inside 0%float)).
Defined.

(** X16.  At every call of [SetTDState_T] on a fluid constructed with its
    table, the viscosity, the conductivity and the mass diffusivity are
    the table's "ViscosityDyn", "Conductivity" and "DiffusionCoefficient"
    at the control point; the flag is the one of that point; the scalar
    vector holds the first n_scalars entries of the caller's array and the
    thermodynamic vector the six values in the order of their names.  The
    pressure, the table and the other value vectors are not written. *)
Theorem X16_SetTDState_T_members :
  forall (A : Type) (I : Su2Double A)
         (CLookUpTable_ctor : string -> string -> string -> CLookUpTable)
         (UNIVERSAL_GAS_CONSTANT indeterminate : A) (indeterminate_flag : nat)
         (config : CConfig) (P_operating : A) (obj0 : CFluidFlamelet)
         (calls : list (A * (nat -> A)))
         (val_temperature : A) (val_scalars : nat -> A),
    CFluidFlamelet_ctor CLookUpTable_ctor indeterminate indeterminate_flag
      config P_operating true = Done obj0 ->
    exists (obj obj' : CFluidFlamelet) (table : CLookUpTable),
      run_calls UNIVERSAL_GAS_CONSTANT obj0 calls = Done obj /\
      look_up_table obj = Some table /\
      SetTDState_T UNIVERSAL_GAS_CONSTANT obj val_temperature val_scalars = Done obj' /\
      let point :=
        if (GetNControlVars config =? 3)%nat
        then [val_scalars I_PROGVAR; val_scalars I_ENTH; val_scalars I_MIXFRAC]
        else [val_scalars I_PROGVAR; val_scalars I_ENTH] in
      Mu obj' = tab_value table "ViscosityDyn" point /\
      Kt obj' = tab_value table "Conductivity" point /\
      mass_diffusivity obj' = tab_value table "DiffusionCoefficient" point /\
      extrapolation obj' = (if tab_inside table point then 0 else 1)%nat /\
      scalars_vector obj' = map val_scalars (seq 0 (GetNScalars config)) /\
      val_vars_TD obj'
      = map (fun name => tab_value table name point)
          ["Temperature"; "Cp"; "ViscosityDyn"; "Conductivity";
           "DiffusionCoefficient"; "MolarWeightMix"] /\
      Pressure obj' = P_operating /\
      look_up_table obj' = Some table /\
      val_vars_Sources obj' = val_vars_Sources obj /\
      val_vars_LookUp obj' = val_vars_LookUp obj.
Proof.
  intros A I tctor R ind indf config P obj0 calls T sc E.
  destruct (@constructed_state A I tctor R ind indf config P obj0 calls E)
    as (obj & table & Er & Hr & _ & Et & Ei & En).
  pose proof (SetTDState_T_result R T sc Hr Et) as Eres. cbv zeta in Eres.
  pose proof Hr as (_ & HP & _ & _ & _ & _ & HnT & _).
  eexists obj, _, table. split; [exact Er|]. split; [exact Et|].
  split; [exact Eres|]. cbv zeta.
  cbn [Mu Kt mass_diffusivity extrapolation scalars_vector val_vars_TD Pressure
       look_up_table val_vars_Sources val_vars_LookUp].
  rewrite Ei, En, HnT, HP, Et. repeat split.
Qed.

Lemma X16_SetTDState_T_members_witness :
  exists (obj0 obj' : CFluidFlamelet),
    FlameStub.ctor true = Done obj0 /\
    SetTDState_T FlameStub.R_universal obj0 0%float
      (fun i => nth i FlameStub.scalars_outside 0%float) = Done obj' /\
    extrapolation obj' = 1%nat /\
    scalars_vector obj' = FlameStub.scalars_outside.
Proof.
  assert (E : exists o, FlameStub.ctor true = Done o)
    by (vm_compute; eexists; reflexivity).
  destruct E as [obj0 E]. exists obj0.
  destruct (@X16_SetTDState_T_members float binary64 (fun _ _ _ => FlameStub.table)
              FlameStub.R_universal nan 0%nat FlameStub.config
              FlameStub.P_operating obj0 [] 0%float
              (fun i => nth i FlameStub.scalars_outside 0%float) E)
    as (obj & obj' & table & Er & Et & E1 & _ & _ & _ & Ef & Es & _).
  cbn [run_calls] in Er. inversion Er; subst obj.
  exists obj'. split; [exact E|]. split; [exact E1|].
  assert (Etab : table = FlameStub.table).
  { vm_compute in E. inversion E; subst obj0. cbn in Et. now inversion Et. }
  subst table. split; [exact Ef | exact Es].
Defined.

(** X17.  [SetTDState_T] caches nothing and accumulates nothing: on a
    fluid constructed with its table, after any calls, a call repeated
    with the same scalars, whatever its temperature argument, returns the
    state the first one left. *)
Theorem X17_SetTDState_T_idempotent :
  forall (A : Type) (I : Su2Double A)
         (CLookUpTable_ctor : string -> string -> string -> CLookUpTable)
         (UNIVERSAL_GAS_CONSTANT indeterminate : A) (indeterminate_flag : nat)
         (config : CConfig) (P_operating : A) (obj0 : CFluidFlamelet)
         (calls : list (A * (nat -> A)))
         (val_temperature : A) (val_scalars : nat -> A),
    CFluidFlamelet_ctor CLookUpTable_ctor indeterminate indeterminate_flag
      config P_operating true = Done obj0 ->
    exists (obj obj' : CFluidFlamelet),
      run_calls UNIVERSAL_GAS_CONSTANT obj0 calls = Done obj /\
      SetTDState_T UNIVERSAL_GAS_CONSTANT obj val_temperature val_scalars = Done obj' /\
      forall val_temperature' : A,
        SetTDState_T UNIVERSAL_GAS_CONSTANT obj' val_temperature' val_scalars
        = Done obj'.
Proof.
  intros A I tctor R ind indf config P obj0 calls T sc E.
  destruct (@constructed_state A I tctor R ind indf config P obj0 calls E)
    as (obj & table & Er & Hr & Hs & Et & _ & _).
  pose proof (SetTDState_T_result R T sc Hr Et) as E1. cbv zeta in E1.
  match type of E1 with _ = Done ?o => set (obj' := o) in * end.
  destruct (@SetTDState_T_keeps A I R P obj obj' T sc Hr Hs E1)
    as (Hr' & _ & Et' & _).
  rewrite Et in Et'.
  exists obj, obj'. split; [exact Er|]. split; [exact E1|].
  intros T'. rewrite (SetTDState_T_result R T' sc Hr' Et'). reflexivity.
Qed.

Lemma X17_SetTDState_T_idempotent_witness :
  exists (obj0 obj' : CFluidFlamelet),
    FlameStub.ctor true = Done obj0 /\
    SetTDState_T FlameStub.R_universal obj0 300%float
      (fun i => nth i FlameStub.scalars_inside 0%float) = Done obj' /\
    SetTDState_T FlameStub.R_universal obj' 2000%float
      (fun i => nth i FlameStub.scalars_inside 0%float) = Done obj'.
Proof.
  assert (E : exists o, FlameStub.ctor true = Done o)
    by (vm_compute; eexists; reflexivity).
  destruct E as [obj0 E]. exists obj0.
  destruct (@X17_SetTDState_T_idempotent float binary64 (fun _ _ _ => FlameStub.table)
              FlameStub.R_universal nan 0%nat FlameStub.config
              FlameStub.P_operating obj0 [] 300%float
              (fun i => nth i FlameStub.scalars_inside 0%float) E)
    as (obj & obj' & Er & E1 & E2).
  cbn [run_calls] in Er. inversion Er; subst obj.
  exists obj'. split; [exact E|]. split; [exact E1 | exact (E2 2000%float)].
Defined.

End FlameletMore.
